(** * SmartLegalExplainer: the session state machine of [app.py]

    A shallow embedding of the Streamlit script [src/app.py]: the keyed
    session store, the upload handler, the clear handler with its rerun,
    the per-feature tabs with their calls to the language model, the
    display of the results with the TXT and PDF downloads, and the clause
    list with its select box, followed by the properties of the
    specification that the script satisfies (or where it departs from
    them). *)

From stdpp Require Import gmap strings list fin_maps.
From Stdlib Require Import NArith ZArith Lia.

Local Open Scope N_scope.

(** ** Python strings and bytes

    A Python [str] is a sequence of Unicode code points and a [bytes] value
    a sequence of octets; both are lists of [N] here.  [len] is [length]. *)

Module Py.

Abbreviation str := (list N).
Abbreviation bytes := (list N).

(** An ASCII literal of the script as a [str]. *)
Definition lit (s : string) : str :=
  Ascii.N_of_ascii <$> String.list_ascii_of_string s.

(** The code points that [str.strip()] removes (those for which
    [str.isspace] holds): TAB..CR, FS..US, SPACE, NEL, NBSP and the Unicode
    space separators. *)
Definition isspace (c : N) : bool :=
  ((0x09 <=? c) && (c <=? 0x0D)) || ((0x1C <=? c) && (c <=? 0x20))
  || (c =? 0x85) || (c =? 0xA0) || (c =? 0x1680)
  || ((0x2000 <=? c) && (c <=? 0x200A))
  || (c =? 0x2028) || (c =? 0x2029) || (c =? 0x202F) || (c =? 0x205F)
  || (c =? 0x3000).

Fixpoint lstrip (s : str) : str :=
  match s with
  | [] => []
  | c :: s' => if isspace c then lstrip s' else s
  end.

Definition rstrip (s : str) : str := rev (lstrip (rev s)).

(** [s.strip()] *)
Definition strip (s : str) : str := rstrip (lstrip s).

(** [s.split(sep)] for a one-character separator: never empty, the empty
    string splits into one empty segment. *)
Fixpoint split (sep : N) (s : str) : list str :=
  match s with
  | [] => [[]]
  | c :: s' =>
      if c =? sep then [] :: split sep s'
      else match split sep s' with
           | [] => [[c]]
           | seg :: segs => (c :: seg) :: segs
           end
  end.

(** [sep.join(parts)] *)
Fixpoint join (sep : str) (parts : list str) : str :=
  match parts with
  | [] => []
  | [p] => p
  | p :: ps => p ++ sep ++ join sep ps
  end.

(** [s.isascii()] *)
Definition isascii (s : str) : bool := forallb (fun c => c <? 0x80) s.

(** [s.lower()].  On a string of ASCII characters it maps A-Z to a-z and
    leaves the rest; on any other string it is the lower-casing of the
    interpreter's Unicode database, which is taken as [unicode_lower]. *)
Definition lower (unicode_lower : str -> str) (s : str) : str :=
  if isascii s
  then (fun c => if (0x41 <=? c) && (c <=? 0x5A) then c + 0x20 else c) <$> s
  else unicode_lower s.

(** Truth value of a string: [if s:] *)
Definition nonempty (s : str) : bool :=
  match s with [] => false | _ => true end.

Definition newline : N := 0x0A.
Definition dot : N := 0x2E.

(** *** UTF-8, as [str.encode()] and [bytes.decode("utf-8")] do it *)

Definition is_surrogate (c : N) : bool := (0xD800 <=? c) && (c <=? 0xDFFF).

(** A Unicode scalar value: a code point that text can carry. *)
Definition is_scalar (c : N) : bool := (c <? 0x110000) && negb (is_surrogate c).

Definition encode_char (c : N) : option bytes :=
  if c <? 0x80 then Some [c]
  else if c <? 0x800 then Some [0xC0 + c / 64; 0x80 + c mod 64]
  else if c <? 0x10000 then
    if is_surrogate c then None
    else Some [0xE0 + c / 4096; 0x80 + (c / 64) mod 64; 0x80 + c mod 64]
  else if c <? 0x110000 then
    Some [0xF0 + c / 262144; 0x80 + (c / 4096) mod 64;
          0x80 + (c / 64) mod 64; 0x80 + c mod 64]
  else None.

(** [s.encode()]: [None] stands for [UnicodeEncodeError]. *)
Fixpoint encode (s : str) : option bytes :=
  match s with
  | [] => Some []
  | c :: s' =>
      match encode_char c, encode s' with
      | Some b, Some r => Some (b ++ r)
      | _, _ => None
      end
  end.

Definition is_cont (b : N) : bool := (0x80 <=? b) && (b <? 0xC0).

(** [b.decode("utf-8")]: strict, [None] stands for [UnicodeDecodeError]. *)
Fixpoint decode (b : bytes) : option str :=
  match b with
  | [] => Some []
  | b0 :: t0 =>
      if b0 <? 0x80 then cons b0 <$> decode t0
      else if b0 <? 0xC0 then None
      else if b0 <? 0xE0 then
        match t0 with
        | b1 :: t1 =>
            let c := (b0 - 0xC0) * 64 + (b1 - 0x80) in
            if is_cont b1 && (0x80 <=? c)
            then cons c <$> decode t1 else None
        | _ => None
        end
      else if b0 <? 0xF0 then
        match t0 with
        | b1 :: b2 :: t2 =>
            let c := (b0 - 0xE0) * 4096 + (b1 - 0x80) * 64 + (b2 - 0x80) in
            if is_cont b1 && is_cont b2 && (0x800 <=? c)
               && negb (is_surrogate c)
            then cons c <$> decode t2 else None
        | _ => None
        end
      else if b0 <? 0xF8 then
        match t0 with
        | b1 :: b2 :: b3 :: t3 =>
            let c := (b0 - 0xF0) * 262144 + (b1 - 0x80) * 4096
                     + (b2 - 0x80) * 64 + (b3 - 0x80) in
            if is_cont b1 && is_cont b2 && is_cont b3
               && (0x10000 <=? c) && (c <? 0x110000)
            then cons c <$> decode t3 else None
        | _ => None
        end
      else None
  end.

End Py.
Import Py.

(** ** The session store

    [st.session_state] is a store keyed by strings.  The script keeps in it
    the document text, the name of the uploaded file ([None] before any
    upload), one result string per feature and three input strings. *)

Inductive value :=
  | VNone
  | VStr (s : list N).

Global Instance value_eq_dec : EqDecision value.
Proof. solve_decision. Defined.

Abbreviation session_state := (gmap string value).

(** [if v:] *)
Definition truthy (v : value) : bool :=
  match v with
  | VNone => false
  | VStr s => nonempty s
  end.

Definition is_none (v : value) : bool :=
  match v with VNone => true | VStr _ => false end.

Definition as_str (v : value) : list N :=
  match v with VNone => [] | VStr s => s end.

(** The analysis features; each owns one result key of the store. *)
Inductive feature :=
  | executive_summary
  | key_takeaways
  | qa_answer
  | clause_explanation
  | entity_extraction
  | obligations_rights
  | glossary
  | outline
  | risk_opportunity
  | document_comparison
  | jurisdiction_analysis
  | sentiment_analysis.

Global Instance feature_eq_dec : EqDecision feature.
Proof. solve_decision. Defined.

Definition all_features : list feature :=
  [ executive_summary; key_takeaways; qa_answer; clause_explanation;
    entity_extraction; obligations_rights; glossary; outline;
    risk_opportunity; document_comparison; jurisdiction_analysis;
    sentiment_analysis ].

(** The session key that holds the result of a feature (lines 219-230). *)
Definition result_key (f : feature) : string :=
  match f with
  | executive_summary => "summary_result"
  | key_takeaways => "takeaways_result"
  | qa_answer => "qa_answer_result"
  | clause_explanation => "clause_explanation_result"
  | entity_extraction => "entities_result"
  | obligations_rights => "obligations_rights_result"
  | glossary => "glossary_result"
  | outline => "outline_result"
  | risk_opportunity => "risk_opportunity_result"
  | document_comparison => "comparison_result"
  | jurisdiction_analysis => "jurisdiction_result"
  | sentiment_analysis => "sentiment_result"
  end.

(** The session keys of the three input widgets (lines 233-235). *)
Definition input_keys : list string :=
  [ "q_a_input_tab"; "clause_select_tab"; "compare_input_tab" ].

(** ** What a run of the script shows and sends *)

Inductive level := success | error | info | warning.

(** One call [client.chat.completions.create(...)]; the temperature is in
    tenths (0.5 is 5). *)
Record request := {
  model : string;
  system_content : list N;
  user_content : list N;
  temperature : N;
  max_tokens : N
}.

Inductive event :=
  | Notice (l : level) (msg : string)
  | EngineCall (r : request).

(** ** External collaborators *)

(** A library call returns or raises; [e] is the exception as printed. *)
Inductive result (A : Type) :=
  | Returns (a : A)
  | Raises (e : string).
Arguments Returns {A} a.
Arguments Raises {A} e.

(** What the model call does: a completion whose message content may be
    [None]; an [openai.APIError], with its attributes [status_code] and
    [response] as printed when the exception has them (an error status
    returned by the API has both, a connection error or a timeout, which
    never got a response, has neither); or any other exception. *)
Inductive engine_outcome :=
  | Completion (content : option (list N))
  | APIError (status_code response : option string)
  | OtherException (e : string).

Record UploadedFile := {
  name : list N;
  read : list N
}.

(** The flowables of ReportLab that the PDF export builds: a paragraph with
    its text and the name of its style, and a spacer. *)
Inductive flowable :=
  | Paragraph (text : list N) (style : string)
  | Spacer (width height : N).

Record Collaborators := {
  (** pdf2image and pytesseract: the page images of a PDF, each with what
      [image_to_string] does on it *)
  convert_from_bytes : list N -> result (list (result (list N)));
  (** PyMuPDF: the pages of a PDF, each with what [get_text] does on it *)
  fitz_open : list N -> result (list (result (list N)));
  (** python-docx: the text of the paragraphs *)
  docx_Document : list N -> result (list (list N));
  (** the OpenAI client *)
  chat_completions_create : request -> engine_outcome;
  (** the interpreter: [str.lower()] on a string that is not ASCII *)
  unicode_lower : list N -> list N;
  (** ReportLab: what the constructor [Paragraph(text, style)] does: it
      parses the markup of the text and raises [ValueError] when that is
      malformed *)
  platypus_Paragraph : list N -> string -> result unit;
  (** ReportLab: [doc.build(story)] and the bytes of the buffer after it *)
  SimpleDocTemplate_build : list flowable -> result (list N)
}.

(** The widgets of one run: the file uploader, the OCR checkbox, the
    persona text area of the sidebar and the buttons. *)
Record Widgets := {
  uploaded_file : option UploadedFile;
  use_ocr : bool;
  custom_ai_instruction : list N;
  clear_doc_button : bool;
  button : feature -> bool
}.

(** ** The script as a state transformer with a trace *)

(** How a computation ends: with a value, or with an exception that no
    handler of the script catches, which stops the run. *)
Inductive ending (A : Type) :=
  | Normal (a : A)
  | Uncaught (e : string).
Arguments Normal {A} a.
Arguments Uncaught {A} e.

Definition M (A : Type) : Type :=
  gmap string value -> ending A * gmap string value * list event.

Definition ret {A} (a : A) : M A := fun st => (Normal a, st, []).

Definition bind {A B} (m : M A) (k : A -> M B) : M B :=
  fun st =>
    let '(r, st1, t1) := m st in
    match r with
    | Normal a =>
        let '(b, st2, t2) := k a st1 in
        (b, st2, t1 ++ t2)
    | Uncaught e => (Uncaught e, st1, t1)
    end.

Definition raise {A} (e : string) : M A := fun st => (Uncaught e, st, []).

Notation "'do' x <- m ; k" := (bind m (fun x => k))
  (at level 10, x name, m at level 100, k at level 200).

(** [st.session_state.k]; every key read is set by the initialisation
    block at the top of each run. *)
Definition getattr (k : string) : M value :=
  fun st => (Normal (default VNone (st !! k)), st, []).

(** [st.session_state.k = v] *)
Definition setattr (k : string) (v : value) : M unit :=
  fun st => (Normal tt, <[k := v]> st, []).

(** [if k not in st.session_state: st.session_state.k = v] *)
Definition setdefault (k : string) (v : value) : M unit :=
  fun st =>
    match st !! k with
    | Some _ => (Normal tt, st, [])
    | None => (Normal tt, <[k := v]> st, [])
    end.

Definition emit (e : event) : M unit := fun st => (Normal tt, st, [e]).

Definition st_success (msg : string) : M unit := emit (Notice success msg).
Definition st_error (msg : string) : M unit := emit (Notice error msg).
Definition st_info (msg : string) : M unit := emit (Notice info msg).
Definition st_warning (msg : string) : M unit := emit (Notice warning msg).

Definition ending_of {A} (r : ending A * gmap string value * list event)
  : ending A := r.1.1.
Definition state_of {A} (r : ending A * gmap string value * list event)
  : gmap string value := r.1.2.
Definition trace_of {A} (r : ending A * gmap string value * list event)
  : list event := r.2.

(** Lines 213-235. *)
Definition init_session_state : M unit :=
  do _ <- setdefault "full_text" (VStr []) ;
  do _ <- setdefault "uploaded_file_name" VNone ;
  do _ <- setdefault "summary_result" (VStr []) ;
  do _ <- setdefault "takeaways_result" (VStr []) ;
  do _ <- setdefault "qa_answer_result" (VStr []) ;
  do _ <- setdefault "clause_explanation_result" (VStr []) ;
  do _ <- setdefault "entities_result" (VStr []) ;
  do _ <- setdefault "obligations_rights_result" (VStr []) ;
  do _ <- setdefault "glossary_result" (VStr []) ;
  do _ <- setdefault "outline_result" (VStr []) ;
  do _ <- setdefault "risk_opportunity_result" (VStr []) ;
  do _ <- setdefault "comparison_result" (VStr []) ;
  do _ <- setdefault "jurisdiction_result" (VStr []) ;
  do _ <- setdefault "sentiment_result" (VStr []) ;
  do _ <- setdefault "q_a_input_tab" (VStr []) ;
  do _ <- setdefault "clause_select_tab" (VStr []) ;
  setdefault "compare_input_tab" (VStr []).

(** Lines 286-302 and 320-336: the same fifteen assignments in both
    handlers. *)
Definition clear_results_and_inputs : M unit :=
  do _ <- setattr "summary_result" (VStr []) ;
  do _ <- setattr "takeaways_result" (VStr []) ;
  do _ <- setattr "qa_answer_result" (VStr []) ;
  do _ <- setattr "clause_explanation_result" (VStr []) ;
  do _ <- setattr "entities_result" (VStr []) ;
  do _ <- setattr "obligations_rights_result" (VStr []) ;
  do _ <- setattr "glossary_result" (VStr []) ;
  do _ <- setattr "outline_result" (VStr []) ;
  do _ <- setattr "risk_opportunity_result" (VStr []) ;
  do _ <- setattr "comparison_result" (VStr []) ;
  do _ <- setattr "jurisdiction_result" (VStr []) ;
  do _ <- setattr "sentiment_result" (VStr []) ;
  do _ <- setattr "q_a_input_tab" (VStr []) ;
  do _ <- setattr "clause_select_tab" (VStr []) ;
  setattr "compare_input_tab" (VStr []).

(** ** Prompts

    The f-strings of the script, line by line. *)

Definition dq : list N := [0x22].

Definition unlines (lines : list (list N)) : list N := join [newline] lines.

(** Line 364. *)
Definition qa_prompt
  (custom_ai_instruction full_text user_question : list N) : list N :=
  unlines
    [ [];
      custom_ai_instruction;
      lit "Your task is to answer questions about a legal document.";
      lit "Read the entire document provided below, and then answer "
        ++ lit "the user's question concisely and accurately based *only* "
        ++ lit "on the information present in the document.";
      lit "If the information is not in the document, state that clearly.";
      [];
      lit "Legal Document:";
      lit "---";
      full_text;
      lit "---";
      [];
      lit "User's Question: " ++ dq ++ user_question ++ dq;
      [];
      lit "Answer:";
      [] ].

(** Line 441. *)
Definition clause_prompt (custom_ai_instruction selected_clause : list N) : list N :=
  unlines
    [ [];
      custom_ai_instruction;
      lit "Read the following legal clause and explain it in plain English:";
      [];
      lit "Clause:";
      lit "---";
      selected_clause;
      lit "---";
      [];
      lit "Explanation:";
      [] ].

(** Line 496. *)
Definition ner_prompt (custom_ai_instruction full_text : list N) : list N :=
  unlines
    [ [];
      custom_ai_instruction;
      lit "From the following legal document, identify and list key "
        ++ lit "entities such as:";
      lit "- Parties involved (e.g., company names, individual names, roles like " ++ dq ++ lit "Lessor" ++ dq ++ lit ", " ++ dq ++ lit "Lessee" ++ dq ++ lit ")";
      lit "- Dates (e.g., " ++ dq ++ lit "Effective Date" ++ dq ++ lit ", specific dates)";
      lit "- Monetary Values";
      lit "- Addresses";
      lit "- Defined Terms (terms explicitly defined within the "
        ++ lit "document, often capitalized)";
      lit "Present them as a clear, categorized list.";
      [];
      lit "Legal Document:";
      lit "---";
      full_text;
      lit "---";
      [];
      lit "Extracted Entities:";
      [] ].

(** Line 557. *)
Definition obligations_rights_prompt (custom_ai_instruction full_text : list N) : list N :=
  unlines
    [ [];
      custom_ai_instruction;
      lit "From the following legal document, identify and list the "
        ++ lit "specific obligations (what each party MUST do) and rights "
        ++ lit "(what each party CAN do).";
      lit "Organize them clearly, preferably by party if applicable, "
        ++ lit "or as a general list if not party-specific.";
      [];
      lit "Legal Document:";
      lit "---";
      full_text;
      lit "---";
      [];
      lit "Obligations and Rights:";
      [] ].

(** Line 613. *)
Definition glossary_prompt (custom_ai_instruction full_text : list N) : list N :=
  unlines
    [ [];
      custom_ai_instruction;
      lit "From the following legal document, identify key legal terms "
        ++ lit "or jargon. For each term, provide a concise, plain-English "
        ++ lit "definition.";
      lit "If the term is explicitly defined in the document, use that "
        ++ lit "definition. Otherwise, provide a general legal definition.";
      lit "Present as a list of " ++ dq ++ lit "Term: Definition" ++ dq ++ lit ".";
      [];
      lit "Legal Document:";
      lit "---";
      full_text;
      lit "---";
      [];
      lit "Legal Glossary:";
      [] ].

(** Line 670. *)
Definition outline_prompt (custom_ai_instruction full_text : list N) : list N :=
  unlines
    [ [];
      custom_ai_instruction;
      lit "Generate a structured outline or table of contents for the "
        ++ lit "following legal document based on its headings, "
        ++ lit "subheadings, and logical sections.";
      lit "Use clear indentation to show hierarchy. Do not include "
        ++ lit "page numbers.";
      [];
      lit "Legal Document:";
      lit "---";
      full_text;
      lit "---";
      [];
      lit "Document Outline:";
      [] ].

(** Line 738. *)
Definition summary_prompt (custom_ai_instruction full_text : list N) : list N :=
  unlines
    [ [];
      custom_ai_instruction;
      lit "Read the entire document provided below and summarize its "
        ++ lit "core purpose, key parties, main agreements, and critical "
        ++ lit "outcomes.";
      lit "The summary should be no more than 200 words and written in "
        ++ lit "plain, professional English.";
      [];
      lit "Legal Document:";
      lit "---";
      full_text;
      lit "---";
      [];
      lit "Executive Summary:";
      [] ].

(** Line 793. *)
Definition takeaways_prompt (custom_ai_instruction full_text : list N) : list N :=
  unlines
    [ [];
      custom_ai_instruction;
      lit "Read the following legal document and identify the most "
        ++ lit "important points, obligations, rights, and responsibilities.";
      lit "Present these as a concise bulleted list of key takeaways. "
        ++ lit "Each takeaway should be a single, clear sentence. Aim for "
        ++ lit "5-10 key points.";
      [];
      lit "Legal Document:";
      lit "---";
      full_text;
      lit "---";
      [];
      lit "Key Takeaways:";
      [] ].

(** Line 848. *)
Definition risk_opportunity_prompt (custom_ai_instruction full_text : list N) : list N :=
  unlines
    [ [];
      custom_ai_instruction;
      lit "Read the following legal document and identify potential "
        ++ lit "risks, liabilities, or unfavorable clauses, as well as any "
        ++ lit "advantageous clauses or opportunities for the parties "
        ++ lit "involved.";
      lit "Present these as two separate lists (Risks and Opportunities).";
      [];
      lit "Legal Document:";
      lit "---";
      full_text;
      lit "---";
      [];
      lit "Analysis:";
      [] ].

(** ** Handlers *)

(** Modelled from the spec: the catalog entries of document-comparison,
    jurisdiction-analysis and sentiment-analysis, whose tabs lie beyond the
    end of [src/app.py].  The spec gives each feature a prompt template
    [promptTemplateFn(documentText, persona, input)] and engine parameters
    [{temperature, maxOutputLength}], and the exporter is handed a title
    with the content ([render(content, title, format)]); their values are
    not in the source. *)
Record descriptor := {
  template : list N -> list N -> list N -> list N;
  d_temperature : N;
  maxOutputLength : N;
  d_title : list N
}.

Section Script.

Variable C : Collaborators.
Variable catalog : feature -> descriptor.

(** *** Text extraction (lines 246-284) *)

(** [for page in doc: processed_text += page.get_text()]: the text read so
    far, and the exception that stopped the loop, if any. *)
Fixpoint read_pages (processed_text : list N) (doc : list (result (list N)))
  : list N * option string :=
  match doc with
  | [] => (processed_text, None)
  | Returns t :: rest => read_pages (processed_text ++ t) rest
  | Raises e :: _ => (processed_text, Some e)
  end.

(** [for i, img in enumerate(images): text_list.append(image_to_string(img))] *)
Fixpoint ocr_images (text_list : list (list N))
  (images : list (result (list N))) : result (list (list N)) :=
  match images with
  | [] => Returns text_list
  | Returns t :: rest => ocr_images (text_list ++ [t]) rest
  | Raises e :: _ => Raises e
  end.

Definition ocr_failed (e : string) : list event :=
  [ Notice error ("OCR failed: " +:+ e +:+
      ". Please ensure Tesseract and Poppler are correctly installed and configured.");
    Notice info
      "You can try unchecking 'Force OCR' if it's a searchable PDF." ].

Definition pdf_failed (e : string) : list event :=
  [ Notice error ("Failed to extract text from PDF: " +:+ e +:+
      ". It might be a scanned document. Try checking 'Force OCR'.") ].

(** [uploaded_file.name.split(".")[-1].lower()] *)
Definition file_type_of (file_name : list N) : list N :=
  lower (unicode_lower C) (default [] (last (split dot file_name))).

(** The body of the spinner block: the value of [processed_text] after it
    and the notices shown.  Every library call sits in a [try] whose
    handler only reports. *)
Definition process_document (f : UploadedFile) (ocr : bool)
  : list N * list event :=
  let file_type := file_type_of (name f) in
  if bool_decide (file_type = lit "pdf") then
    if ocr then
      match convert_from_bytes C (read f) with
      | Raises e => ([], ocr_failed e)
      | Returns images =>
          match ocr_images [] images with
          | Raises e => ([], ocr_failed e)
          | Returns text_list =>
              (join [newline] text_list,
               [Notice success "OCR completed successfully!"])
          end
      end
    else
      match fitz_open C (read f) with
      | Raises e => ([], pdf_failed e)
      | Returns doc =>
          match read_pages [] doc with
          | (processed_text, None) =>
              (processed_text, [Notice success "Text extracted from PDF."])
          | (processed_text, Some e) => (processed_text, pdf_failed e)
          end
      end
  else if bool_decide (file_type = lit "docx") then
    match docx_Document C (read f) with
    | Returns paragraphs =>
        (join [newline] paragraphs,
         [Notice success "Text extracted from DOCX."])
    | Raises e => ([], [Notice error ("Failed to process DOCX file: " +:+ e)])
    end
  else if bool_decide (file_type = lit "txt") then
    match decode (read f) with
    | Some text => (text, [Notice success "Text extracted from TXT."])
    | None =>
        ([], [Notice error ("Failed to read TXT file: "
                +:+ "'utf-8' codec can't decode the file"
                +:+ ". Ensure it's a valid UTF-8 text file.")])
    end
  else ([], []).

Definition spinner (r : list N * list event) : M (list N) :=
  fun st => (Normal r.1, st, r.2).

(** *** The upload handler (lines 243-312) *)

Definition upload_handler (file : option UploadedFile) (ocr : bool) : M unit :=
  do stored <- getattr "uploaded_file_name" ;
  match file with
  | Some f =>
      if is_none stored || negb (bool_decide (stored = VStr (name f))) then
        (* new file uploaded, process it *)
        do _ <- setattr "uploaded_file_name" (VStr (name f)) ;
        do processed_text <- spinner (process_document f ocr) ;
        do _ <- setattr "full_text" (VStr processed_text) ;
        clear_results_and_inputs
      else
        (* the file is the same as before: pass *)
        ret tt
  | None =>
      (* no file in the uploader: both remaining branches pass *)
      ret tt
  end.

(** *** The clear handler (lines 318-336)

    The assignments of the clear button; the [st.rerun()] that follows them
    (line 338) is in [script] and [ClearDocument]. *)

Definition clear_handler : M unit :=
  do _ <- setattr "full_text" (VStr []) ;
  do _ <- setattr "uploaded_file_name" VNone ;
  clear_results_and_inputs.

(** *** The model call with its two handlers

    The block that every tab repeats: the call, the assignment of the
    stripped answer and the success notice, or the error notices and the
    assignment of the empty string.  An exception raised inside a handler
    is not caught by the other handler of the same [try]: it ends the
    run. *)
Definition ask (slot : string) (persona prompt : list N)
  (temp tokens : N) (done_msg unexpected : string) : M unit :=
  let req := {| model := "gpt-4o"; system_content := persona;
                user_content := prompt; temperature := temp;
                max_tokens := tokens |} in
  do _ <- emit (EngineCall req) ;
  match chat_completions_create C req with
  | Completion (Some content) =>
      do _ <- setattr slot (VStr (strip content)) ;
      st_success done_msg
  | Completion None =>
      do _ <- st_error
        (unexpected +:+ "'NoneType' object has no attribute 'strip'") ;
      setattr slot (VStr [])
  | APIError (Some status_code) (Some response) =>
      do _ <- st_error
        ("OpenAI API Error: " +:+ status_code +:+ " - " +:+ response) ;
      do _ <- st_info "Please check your API key and network connection." ;
      setattr slot (VStr [])
  | APIError None _ =>
      (* the message of the first handler reads [e.status_code] ... *)
      raise "AttributeError: the exception has no attribute 'status_code'"
  | APIError (Some _) None =>
      (* ... and [e.response], before anything is shown or assigned *)
      raise "AttributeError: the exception has no attribute 'response'"
  | OtherException e =>
      do _ <- st_error (unexpected +:+ e) ;
      setattr slot (VStr [])
  end.

(** *** The clause list (line 421) *)

(** [[p.strip() for p in full_text.split("\n") if len(p.strip()) > 50]] *)
Definition clauses (full_text : list N) : list (list N) :=
  flat_map
    (fun p => if bool_decide (50 < length (strip p))%nat then [strip p] else [])
    (split newline full_text).

(** [clauses.index(x)] for an [x] that is in the list *)
Fixpoint index (x : list N) (l : list (list N)) : nat :=
  match l with
  | [] => 0
  | y :: l' => if bool_decide (y = x) then 0%nat else S (index x l')
  end.

(** [v in clauses] *)
Definition value_in (v : value) (l : list (list N)) : bool :=
  match v with
  | VNone => false
  | VStr s => bool_decide (s ∈ l)
  end.

(** *** The PDF export (lines 39-57)

    [create_pdf] builds a story: the title as a heading and a spacer, then
    one paragraph and a spacer for every line of the content that is not
    blank; it hands the story to [doc.build] and returns the bytes.  The
    spacer heights [0.2 * 100] and [0.1 * 100] are 20 and 10 points.  The
    constructor [Paragraph] may raise, and nothing in [create_pdf] catches
    that. *)

(** [Paragraph(text, styles[style])] *)
Definition new_Paragraph (text : list N) (style : string) : result flowable :=
  match platypus_Paragraph C text style with
  | Returns _ => Returns (Paragraph text style)
  | Raises e => Raises e
  end.

(** [for paragraph_text in ...: if paragraph_text.strip(): story.append(...)] *)
Fixpoint add_content (story : list flowable) (segments : list (list N))
  : result (list flowable) :=
  match segments with
  | [] => Returns story
  | paragraph_text :: rest =>
      if nonempty (strip paragraph_text) then
        match new_Paragraph paragraph_text "Normal" with
        | Returns p => add_content (story ++ [p; Spacer 1 10]) rest
        | Raises e => Raises e
        end
      else add_content story rest
  end.

(** The story at the time of [doc.build(story)]. *)
Definition story (text_content title : list N) : result (list flowable) :=
  match new_Paragraph title "h1" with
  | Returns heading =>
      add_content [heading; Spacer 1 20] (split newline text_content)
  | Raises e => Raises e
  end.

(** [create_pdf(text_content, title)] *)
Definition create_pdf (text_content title : list N) : result (list N) :=
  match story text_content title with
  | Returns flowables => SimpleDocTemplate_build C flowables
  | Raises e => Raises e
  end.

(** *** The TXT download (lines 403-409 and the like)

    [st.download_button(data=content, ...)] with a [str] serves
    [content.encode()]; label, file name and MIME type do not enter the
    payload. *)
Definition download_button (label : string) (data : list N)
  (file_name mime : string) : option (list N) :=
  encode data.

(** *** The display of a result (lines 399-417 and the like)

    After its [try], every block shows the result of its feature when the
    store holds one, and offers it as TXT and as PDF.  The arguments of the
    two download buttons are evaluated outside any [try]: an exception of
    [str.encode] or of [create_pdf] ends the run. *)
Definition show_result (slot txt_label txt_file_name : string)
    (title : list N) : M unit :=
  do r <- getattr slot ;
  if truthy r then
    match download_button txt_label (as_str r) txt_file_name "text/plain" with
    | None => raise "UnicodeEncodeError"
    | Some _ =>
        match create_pdf (as_str r) title with
        | Returns _ => ret tt
        | Raises e => raise e
        end
    end
  else ret tt.

(** The title of the PDF of each feature (lines 413, 486, 547, 603, 660,
    716, 784 and 839).  Modelled from the spec: the displays of the risk
    analysis, the comparison, the jurisdiction and the sentiment analysis lie
    beyond the end of [src/app.py]; their title is that of the catalog. *)
Definition pdf_title (f : feature) : list N :=
  match f with
  | qa_answer => lit "Q&A Answer"
  | clause_explanation => lit "Clause Explanation"
  | entity_extraction => lit "Extracted Entities"
  | obligations_rights => lit "Obligations & Rights"
  | glossary => lit "Legal Glossary"
  | outline => lit "Document Outline"
  | executive_summary => lit "Executive Summary"
  | key_takeaways => lit "Key Takeaways"
  | risk_opportunity | document_comparison | jurisdiction_analysis
  | sentiment_analysis => d_title (catalog f)
  end.

(** Modelled from the spec: the display of a block that lies beyond the end
    of [src/app.py], in the way of the eight displays of the source.  The
    exporter renders the content of the slot as TXT (passed through as its
    UTF-8 encoding) and as PDF under a title
    ([render(content, title, format)]). *)
Definition spec_show (f : feature) : M unit :=
  do r <- getattr (result_key f) ;
  if truthy r then
    match encode (as_str r) with
    | None => raise "UnicodeEncodeError"
    | Some _ =>
        match create_pdf (as_str r) (pdf_title f) with
        | Returns _ => ret tt
        | Raises e => raise e
        end
    end
  else ret tt.

(** The display that follows the block of a feature. *)
Definition show (f : feature) : M unit :=
  match f with
  | qa_answer =>
      show_result "qa_answer_result" "Download Q&A (TXT)" "qa_answer.txt"
        (pdf_title f)
  | clause_explanation =>
      show_result "clause_explanation_result" "Download Clause (TXT)"
        "clause_explanation.txt" (pdf_title f)
  | entity_extraction =>
      show_result "entities_result" "Download Entities (TXT)"
        "extracted_entities.txt" (pdf_title f)
  | obligations_rights =>
      show_result "obligations_rights_result" "Download Obligations (TXT)"
        "obligations_rights.txt" (pdf_title f)
  | glossary =>
      show_result "glossary_result" "Download Glossary (TXT)"
        "legal_glossary.txt" (pdf_title f)
  | outline =>
      show_result "outline_result" "Download Outline (TXT)"
        "document_outline.txt" (pdf_title f)
  | executive_summary =>
      show_result "summary_result" "Download Summary (TXT)"
        "executive_summary.txt" (pdf_title f)
  | key_takeaways =>
      show_result "takeaways_result" "Download Takeaways (TXT)"
        "key_takeaways.txt" (pdf_title f)
  | risk_opportunity | document_comparison | jurisdiction_analysis
  | sentiment_analysis => spec_show f
  end.

(** *** The tabs (lines 358-873) *)

Section Tabs.

Variable w : Widgets.
Variable full_text : list N.

Let persona := custom_ai_instruction w.

(** Lines 358-397.  The text input is bound to the key [q_a_input_tab]. *)
Definition tab_qa : M unit :=
  do q <- getattr "q_a_input_tab" ;
  let user_question := as_str q in
  if button w qa_answer && nonempty user_question then
    ask "qa_answer_result" persona
      (qa_prompt persona full_text user_question) 5 300
      "Answer Found!" "An unexpected error occurred during Q&A: "
  else ret tt.

(** Lines 419-470.  The select box offers [clauses], returns the option at
    [current_clause_index] and, being bound to the key [clause_select_tab],
    stores that option under the key. *)
Definition tab_clause : M unit :=
  let clauses := clauses full_text in
  if negb (bool_decide (clauses <> [])) then
    st_warning ("No substantial clauses (paragraphs longer than 50 "
                +:+ "characters) were found for individual explanation.")
  else
    do sel <- getattr "clause_select_tab" ;
    let current_clause_index :=
      if value_in sel clauses then index (as_str sel) clauses else 0%nat in
    let selected_clause := default [] (clauses !! current_clause_index) in
    do _ <- setattr "clause_select_tab" (VStr selected_clause) ;
    if button w clause_explanation then
      ask "clause_explanation_result" persona
        (clause_prompt persona selected_clause) 7 500
        "Here's your explanation:"
        "An unexpected error occurred during AI explanation: "
    else ret tt.

(** Lines 492-531. *)
Definition tab_entities : M unit :=
  if button w entity_extraction then
    ask "entities_result" persona (ner_prompt persona full_text) 3 700
      "Key Entities Extracted!"
      "An unexpected error occurred during entity extraction: "
  else ret tt.

(** Lines 553-587. *)
Definition tab_obligations : M unit :=
  if button w obligations_rights then
    ask "obligations_rights_result" persona
      (obligations_rights_prompt persona full_text) 5 800
      "Obligations and Rights Identified!"
      "An unexpected error occurred during extraction: "
  else ret tt.

(** Lines 609-644. *)
Definition tab_glossary : M unit :=
  if button w glossary then
    ask "glossary_result" persona (glossary_prompt persona full_text) 3 800
      "Legal Glossary Generated!"
      "An unexpected error occurred during glossary generation: "
  else ret tt.

(** Lines 666-700. *)
Definition tab_outline : M unit :=
  if button w outline then
    ask "outline_result" persona (outline_prompt persona full_text) 3 700
      "Document Outline Generated!"
      "An unexpected error occurred during outline generation: "
  else ret tt.

(** Lines 735-768. *)
Definition summary_block : M unit :=
  if button w executive_summary then
    ask "summary_result" persona (summary_prompt persona full_text) 7 250
      "Executive Summary Generated!"
      "An unexpected error occurred during summary generation: "
  else ret tt.

(** Lines 790-823. *)
Definition takeaways_block : M unit :=
  if button w key_takeaways then
    ask "takeaways_result" persona (takeaways_prompt persona full_text) 7 400
      "Key Takeaways Extracted!"
      "An unexpected error occurred during key takeaways extraction: "
  else ret tt.

(** Lines 845-873.  Modelled from the spec: [src/app.py] ends inside the
    first [except] clause of this block.  The button, the prompt, the call,
    the success branch and the first error notices are in the source; the
    assignment that clears the slot and the second [except] clause follow
    the spec (a failed run clears content on that attempt) in the way of
    the eight blocks above; the wording of the second error notice is not
    in the source. *)
Definition risk_block : M unit :=
  if button w risk_opportunity then
    ask "risk_opportunity_result" persona
      (risk_opportunity_prompt persona full_text) 7 700
      "Risk and Opportunity Analysis Complete!"
      "An unexpected error occurred: "
  else ret tt.

(** Modelled from the spec: the blocks of document-comparison,
    jurisdiction-analysis and sentiment-analysis, which lie beyond the end
    of [src/app.py].  RunFeature builds the prompt from the catalog's
    template with the document text, the persona and the input, calls the
    engine, stores the output on success and, on failure, reports the
    failure and clears the content; a feature that requires an input does
    not run without one. *)
Definition spec_block (f : feature) (input_key : option string) : M unit :=
  do input <- match input_key with
              | Some k => getattr k
              | None => ret (VStr [])
              end ;
  let requiresInput := bool_decide (input_key <> None) in
  if button w f && (negb requiresInput || nonempty (as_str input)) then
    let d := catalog f in
    let req := {| model := "gpt-4o"; system_content := persona;
                  user_content := template d full_text persona (as_str input);
                  temperature := d_temperature d;
                  max_tokens := maxOutputLength d |} in
    do _ <- emit (EngineCall req) ;
    match chat_completions_create C req with
    | Completion (Some content) => setattr (result_key f) (VStr content)
    | Completion None =>
        do _ <- st_error "no content" ;
        setattr (result_key f) (VStr [])
    | APIError status_code response =>
        do _ <- st_error
          (default "" status_code +:+ " - " +:+ default "" response) ;
        setattr (result_key f) (VStr [])
    | OtherException e =>
        do _ <- st_error e ;
        setattr (result_key f) (VStr [])
    end
  else ret tt.

(** The block of the script that serves a feature: its input widgets and
    the handler of its button, up to the end of the [try]. *)
Definition block (f : feature) : M unit :=
  match f with
  | qa_answer => tab_qa
  | clause_explanation => tab_clause
  | entity_extraction => tab_entities
  | obligations_rights => tab_obligations
  | glossary => tab_glossary
  | outline => tab_outline
  | executive_summary => summary_block
  | key_takeaways => takeaways_block
  | risk_opportunity => risk_block
  | document_comparison => spec_block f (Some "compare_input_tab")
  | jurisdiction_analysis => spec_block f None
  | sentiment_analysis => spec_block f None
  end.

(** The blocks in the order of the script: the six tabs of the left
    column, then the right column. *)
Definition script_order : list feature :=
  [ qa_answer; clause_explanation; entity_extraction; obligations_rights;
    glossary; outline; executive_summary; key_takeaways; risk_opportunity;
    document_comparison; jurisdiction_analysis; sentiment_analysis ].

(** Each block is followed by the display of its result. *)
Fixpoint run_blocks (fs : list feature) : M unit :=
  match fs with
  | [] => ret tt
  | f :: fs' => do _ <- block f ; do _ <- show f ; run_blocks fs'
  end.

End Tabs.

(** *** The whole script (one run) *)

(** The result says whether the run ended in [st.rerun()].  Lines 16-36
    end the process when the API key is missing, so the tests of the key at
    lines 349 and 726 pass in every run that gets this far. *)
Definition script (w : Widgets) : M bool :=
  do _ <- init_session_state ;
  do _ <- upload_handler (uploaded_file w) (use_ocr w) ;
  do full_text <- getattr "full_text" ;
  if clear_doc_button w then
    do _ <- clear_handler ;
    ret true
  else if truthy full_text then
    do _ <- run_blocks w (as_str full_text) script_order ;
    ret false
  else ret false.

(** *** The transitions of the specification *)

(** LoadDocument: the upload handler on a file in the uploader. *)
Definition LoadDocument (f : UploadedFile) (ocr : bool) : M unit :=
  upload_handler (Some f) ocr.

(** The widgets as the run that [st.rerun()] starts sees them: the
    uploader, the checkbox and the text area keep what they hold, and no
    button is clicked. *)
Definition rerun (w : Widgets) : Widgets :=
  {| uploaded_file := uploaded_file w; use_ocr := use_ocr w;
     custom_ai_instruction := custom_ai_instruction w;
     clear_doc_button := false; button := fun _ => false |}.

(** ClearDocument: the clear button, that is its handler (lines 318-336)
    and the run of the script that its [st.rerun()] (line 338) starts. *)
Definition ClearDocument (w : Widgets) : M bool :=
  do _ <- clear_handler ;
  script (rerun w).

(** The widgets of a run in which the button of [f] alone was clicked. *)
Definition click (persona : list N) (f : feature) : Widgets :=
  {| uploaded_file := None; use_ocr := false;
     custom_ai_instruction := persona; clear_doc_button := false;
     button := fun g => bool_decide (g = f) |}.

(** RunFeature: the block of [f] with its button clicked, behind the gate
    [if full_text:] of line 341. *)
Definition RunFeature (persona : list N) (f : feature) : M unit :=
  do full_text <- getattr "full_text" ;
  if truthy full_text then block (click persona f) (as_str full_text) f
  else ret tt.

(** Lines 399-409: the download of the answer, offered when there is one. *)
Definition download_qa_txt_tab (st : gmap string value)
  : option (list N) :=
  let qa_answer_result := default VNone (st !! "qa_answer_result") in
  if truthy qa_answer_result then
    download_button "Download Q&A (TXT)" (as_str qa_answer_result)
      "qa_answer.txt" "text/plain"
  else None.

End Script.

(** ** Reading a story *)

(** The texts of the paragraphs of a story, in order. *)
Definition paragraphs (fs : list flowable) : list (list N) :=
  omap (fun x => match x with Paragraph t _ => Some t | Spacer _ _ => None end)
       fs.

(** The flowables that [create_pdf] appends for the lines that it keeps. *)
Definition body (lines : list (list N)) : list flowable :=
  flat_map (fun p => [Paragraph p "Normal"; Spacer 1 10]) lines.

(** ** Sessions *)

(** The nine features whose blocks are in the source. *)
Definition source_features : list feature :=
  [ qa_answer; clause_explanation; entity_extraction; obligations_rights;
    glossary; outline; executive_summary; key_takeaways; risk_opportunity ].

(** The requests of a trace, in order. *)
Definition calls_of (t : list event) : list request :=
  omap (fun e => match e with EngineCall r => Some r | Notice _ _ => None end)
       t.

(** What the user types or picks before a run: the value of an input
    widget that is bound to a key is in the store under that key when the
    script runs. *)
Definition set_input (st : gmap string value) (input : string * list N)
  : gmap string value :=
  if bool_decide (input.1 ∈ input_keys) then <[input.1 := VStr input.2]> st
  else st.

(** One run of a session: what the user typed or picked before it, the
    widgets of the run, and what the libraries and the model do during
    it. *)
Record run := {
  libraries : Collaborators;
  typed : list (string * list N);
  widgets : Widgets
}.

(** A session: one run of the script after the other, each on the store
    that the run before left. *)
Fixpoint session (catalog : feature -> descriptor) (runs : list run)
    (st : gmap string value) : gmap string value :=
  match runs with
  | [] => st
  | r :: runs' =>
      session catalog runs'
        (state_of (script (libraries r) catalog (widgets r)
                     (foldl set_input st (typed r))))
  end.

(** No result without a document: the text reads as non-empty, or every
    result reads as empty. *)
Definition no_orphan_result (st : gmap string value) : bool :=
  truthy (default VNone (st !! "full_text"))
  || forallb
       (fun f => negb (truthy (default VNone (st !! result_key f))))
       all_features.

(** A paragraph that [create_pdf] keeps: one that is not blank. *)
Definition nonblank (paragraph_text : list N) : Prop :=
  nonempty (strip paragraph_text) = true.

Global Instance nonblank_dec (p : list N) : Decision (nonblank p).
Proof. unfold nonblank. apply _. Defined.

(** A string that does not begin with whitespace. *)
Definition starts_clean (s : list N) : bool :=
  match s with
  | [] => true
  | c :: _ => negb (isspace c)
  end.

(** A string with no whitespace at either end. *)
Definition trimmed (s : list N) : bool :=
  starts_clean s && starts_clean (rev s).

(** ** The select box of the clause tab *)

(** The option that the select box shows on a store: the stored one when
    it is offered, the first one otherwise. *)
Definition selection (full_text : list N) (st : gmap string value) : list N :=
  let sel := default VNone (st !! "clause_select_tab") in
  default []
    (clauses full_text
       !! (if value_in sel (clauses full_text)
           then index (as_str sel) (clauses full_text) else 0%nat)).

(** The store after the input widgets of a block: the select box of the
    clause tab, when the document has a clause, stores its option; no other
    block writes on its way to the button. *)
Definition after_select_box (f : feature) (full_text : list N)
    (st : gmap string value) : gmap string value :=
  match f, clauses full_text with
  | clause_explanation, _ :: _ =>
      <["clause_select_tab" := VStr (selection full_text st)]> st
  | _, _ => st
  end.

(** The select box has nothing to change: the document has no clause, or
    the store holds one of its clauses as the selection. *)
Definition settled (full_text : list N) (st : gmap string value) : Prop :=
  clauses full_text = []
  \/ exists c : list N,
       c ∈ clauses full_text /\ st !! "clause_select_tab" = Some (VStr c).

(** ** What one feature block can do *)

(** The model call raised. *)
Definition raised (o : engine_outcome) : bool :=
  match o with
  | Completion _ => false
  | APIError _ _ | OtherException _ => true
  end.

Definition no_calls (t : list event) : Prop :=
  forall r, EngineCall r ∉ t.

(** From the store [st] that its input widgets left, a block either leaves
    the store alone and calls nothing, or makes one call and assigns the
    result key of its feature, with the empty string when the call raised,
    or makes one call that raised and ends the run in its handler with the
    store as it was. *)
Inductive block_outcome (C : Collaborators) (f : feature)
    (st : gmap string value)
  : ending unit * gmap string value * list event -> Prop :=
  | block_idle (t : list event) :
      no_calls t ->
      block_outcome C f st (Normal tt, st, t)
  | block_called (req : request) (content : list N) (t : list event) :
      no_calls t ->
      (raised (chat_completions_create C req) = true -> content = []) ->
      block_outcome C f st
        (Normal tt, <[result_key f := VStr content]> st, EngineCall req :: t)
  | block_crashed (req : request) (e : string) :
      raised (chat_completions_create C req) = true ->
      block_outcome C f st (Uncaught e, st, [EngineCall req]).

(** ** Initialised stores *)

(** The seventeen keys that the initialisation block sets. *)
Definition session_keys : list string :=
  ["full_text"; "uploaded_file_name"] ++ (result_key <$> all_features)
  ++ input_keys.

(** A store as every run leaves it: all keys present. *)
Definition initialised (st : gmap string value) : Prop :=
  forall k : string, k ∈ session_keys -> is_Some (st !! k).

(** A computation that never removes a key. *)
Definition keeps_keys {A} (m : M A) : Prop :=
  forall (st : gmap string value) (k : string),
    is_Some (st !! k) -> is_Some (state_of (m st) !! k).

(** ** Reading a trace *)

(** A run signals a problem when it ends in an exception or shows an
    error or a warning. *)
Definition signals_problem {A}
    (r : ending A * gmap string value * list event) : bool :=
  match ending_of r with
  | Uncaught _ => true
  | Normal _ =>
      existsb
        (fun e =>
           match e with
           | Notice error _ | Notice warning _ => true
           | _ => false
           end) (trace_of r)
  end.

(** The clause list in the words of the specification, for comparison with
    [clauses]: the newline-separated segments whose stripped length exceeds
    50, in document order. *)
Definition segments_over_50 (full_text : list N) : list (list N) :=
  filter (fun p => (50 < length (strip p))%nat) (split newline full_text).

(** ** Sample sessions *)

Module Demo.

Definition lease_clause : list N :=
  lit "The Lessee shall pay the rent on the first day of each month.".

Definition lease : UploadedFile :=
  {| name := lit "lease.txt"; read := lease_clause |}.

Definition amendment : UploadedFile :=
  {| name := lit "amendment.docx"; read := [0x50; 0x4B; 0x03; 0x04] |}.

Definition damaged : UploadedFile :=
  {| name := lit "damaged.pdf"; read := lit "%PDF-1.7" |}.

(** The lower-casing of the Unicode database on Latin-1 text; the samples
    hold no cased letter beyond Latin-1. *)
Definition latin1_lower (s : list N) : list N :=
  (fun c =>
     if ((0x41 <=? c) && (c <=? 0x5A))
        || ((0xC0 <=? c) && (c <=? 0xDE) && negb (c =? 0xD7))
     then c + 0x20 else c) <$> s.

(** A markup parser that rejects a text which opens a tag and holds no
    closing tag at all, as [<b>bold] does. *)
Definition paraparser (text : list N) (style : string) : result unit :=
  if bool_decide (0x3C ∈ text) && negb (bool_decide (0x2F ∈ text))
  then Raises "ValueError: paragraph text has an unclosed tag"
  else Returns tt.

(** Libraries that read [damaged] up to its second page, and a model that
    answers. *)
Definition answering : Collaborators :=
  {| convert_from_bytes := fun _ => Raises "Unable to get page count.";
     fitz_open := fun _ =>
       Returns [Returns (lit "Page one."); Raises "cannot load page 2"];
     docx_Document := fun _ =>
       Returns [lit "Amendment."; lit "The rent is raised."];
     chat_completions_create := fun _ =>
       Completion (Some (lit " The rent is due monthly. "));
     unicode_lower := latin1_lower;
     platypus_Paragraph := paraparser;
     SimpleDocTemplate_build := fun _ => Returns (lit "%PDF-1.4") |}.

(** The same libraries with a model that is rate limited. *)
Definition rate_limited : Collaborators :=
  {| convert_from_bytes := convert_from_bytes answering;
     fitz_open := fitz_open answering;
     docx_Document := docx_Document answering;
     chat_completions_create := fun _ =>
       APIError (Some "429") (Some "Rate limit reached");
     unicode_lower := unicode_lower answering;
     platypus_Paragraph := platypus_Paragraph answering;
     SimpleDocTemplate_build := SimpleDocTemplate_build answering |}.

(** The same libraries without network: the client raises a connection
    error, an [APIError] that has no status code and no response. *)
Definition offline : Collaborators :=
  {| convert_from_bytes := convert_from_bytes answering;
     fitz_open := fitz_open answering;
     docx_Document := docx_Document answering;
     chat_completions_create := fun _ => APIError None None;
     unicode_lower := unicode_lower answering;
     platypus_Paragraph := platypus_Paragraph answering;
     SimpleDocTemplate_build := SimpleDocTemplate_build answering |}.

Definition catalog (f : feature) : descriptor :=
  {| template := fun document persona input => persona ++ document ++ input;
     d_temperature := 5;
     maxOutputLength := 500;
     d_title := lit "Document Insight" |}.

Definition persona : list N :=
  lit "You are a legal expert who explains complex clauses in simple terms.".

(** A new session, after the initialisation block. *)
Definition fresh : gmap string value :=
  state_of (init_session_state ∅).

(** [lease] loaded into a new session. *)
Definition loaded : gmap string value :=
  state_of (LoadDocument answering lease false fresh).

(** ... and a question typed and answered. *)
Definition answered : gmap string value :=
  state_of (RunFeature answering catalog persona qa_answer
              (<["q_a_input_tab" := VStr (lit "When is the rent due?")]>
                 loaded)).

(** The request that the Q&A tab sends for that question. *)
Definition question : request :=
  {| model := "gpt-4o";
     system_content := persona;
     user_content :=
       qa_prompt persona lease_clause (lit "When is the rent due?");
     temperature := 5;
     max_tokens := 300 |}.

(** A section sign, a euro sign and an emoji: two, three and four bytes. *)
Definition symbols : list N := [0xA7; 0x20; 0x20AC; 0x20; 0x1F4C4].

(** A text with CR LF line ends, and a text without any clause. *)
Definition crlf_text : list N :=
  lease_clause ++ [0x0D; newline] ++ lit "Signed." ++ [0x0D; newline].
Definition short_text : list N := lit "Lease." ++ [newline] ++ lit "Signed.".

End Demo.

(** ** More sample data *)

Module Sample.

Definition contract_pdf : UploadedFile :=
  {| name := lit "Contract.v2.PDF"; read := lit "%PDF-1.4" |}.

(** The UTF-8 encoding of [Demo.symbols]. *)
Definition notes_txt : UploadedFile :=
  {| name := lit "notes.txt";
     read := [0xC2; 0xA7; 0x20; 0xE2; 0x82; 0xAC; 0x20;
              0xF0; 0x9F; 0x93; 0x84] |}.

Definition contract_docx : UploadedFile :=
  {| name := lit "contract.docx"; read := [0x50; 0x4B; 0x03; 0x04] |}.

Definition readme : UploadedFile :=
  {| name := lit "README"; read := lit "Lease." |}.

(** Libraries that read every page, and a model that answers. *)
Definition readable : Collaborators :=
  {| convert_from_bytes := fun _ =>
       Returns [Returns (lit "Scan one."); Returns (lit "Scan two.")];
     fitz_open := fun _ =>
       Returns [Returns (lit "Page one."); Returns (lit "Page two.")];
     docx_Document := fun _ => Returns [Demo.lease_clause; lit "Signed."];
     chat_completions_create :=
       chat_completions_create Demo.answering;
     unicode_lower := unicode_lower Demo.answering;
     platypus_Paragraph := platypus_Paragraph Demo.answering;
     SimpleDocTemplate_build := SimpleDocTemplate_build Demo.answering |}.

(** The same with a second page image that cannot be recognised. *)
Definition smudged : Collaborators :=
  {| convert_from_bytes := fun _ =>
       Returns [Returns (lit "Scan one."); Raises "TesseractError"];
     fitz_open := fitz_open readable;
     docx_Document := docx_Document readable;
     chat_completions_create := chat_completions_create readable;
     unicode_lower := unicode_lower readable;
     platypus_Paragraph := platypus_Paragraph readable;
     SimpleDocTemplate_build := SimpleDocTemplate_build readable |}.


(** The request of the summary block on [Demo.lease]. *)
Definition summary_request : request :=
  {| model := "gpt-4o";
     system_content := Demo.persona;
     user_content := summary_prompt Demo.persona Demo.lease_clause;
     temperature := 7;
     max_tokens := 250 |}.

(** Widgets with [Demo.lease] in the uploader and nothing clicked. *)
Definition idle : Widgets :=
  {| uploaded_file := Some Demo.lease; use_ocr := false;
     custom_ai_instruction := Demo.persona; clear_doc_button := false;
     button := fun _ => false |}.

(** The same with the clear button clicked: the uploader keeps its file. *)
Definition clear_clicked : Widgets :=
  {| uploaded_file := Some Demo.lease; use_ocr := false;
     custom_ai_instruction := Demo.persona; clear_doc_button := true;
     button := fun _ => false |}.

(** The clear button clicked after the uploader was emptied. *)
Definition clearing : Widgets :=
  {| uploaded_file := None; use_ocr := false;
     custom_ai_instruction := Demo.persona; clear_doc_button := true;
     button := fun _ => false |}.

(** A store that holds a result but no document text. *)
Definition orphaned : gmap string value :=
  <["summary_result" := VStr (lit "Summary.")]> Demo.fresh.

(** The libraries of [readable] with a model that marks its answer up and
    does not close the tag. *)
Definition marking : Collaborators :=
  {| convert_from_bytes := convert_from_bytes readable;
     fitz_open := fitz_open readable;
     docx_Document := docx_Document readable;
     chat_completions_create := fun _ => Completion (Some (lit " <b>bold "));
     unicode_lower := unicode_lower readable;
     platypus_Paragraph := platypus_Paragraph readable;
     SimpleDocTemplate_build := SimpleDocTemplate_build readable |}.

(** The store after the run that loaded [Demo.lease]: the page shows the
    text and the select box, which holds the first clause. *)
Definition rendered : gmap string value :=
  state_of (script Demo.answering Demo.catalog idle Demo.fresh).

(** Two lines of an answer with a blank line between them, and an answer
    whose bold tag is never closed. *)
Definition two_lines : list N :=
  lit " Rent is due." ++ [newline; 0x20; newline] ++ lit "<b>Monthly.</b>".
Definition unclosed : list N := lit "Rent is due." ++ [newline] ++ lit "<b>bold".

(** [Demo.lease] in the uploader and the button of a feature clicked. *)
Definition asking (f : feature) : Widgets :=
  {| uploaded_file := Some Demo.lease; use_ocr := false;
     custom_ai_instruction := Demo.persona; clear_doc_button := false;
     button := fun g => bool_decide (g = f) |}.

(** The runs of a visit: the upload; a question typed and answered; the
    same question under a rate limit; a summary; the clear button after the
    uploader was emptied. *)
Definition visit : list run :=
  [ {| libraries := Demo.answering; typed := []; widgets := idle |};
    {| libraries := Demo.answering;
       typed := [("q_a_input_tab", lit "When is the rent due?")];
       widgets := asking qa_answer |};
    {| libraries := Demo.rate_limited; typed := [];
       widgets := asking qa_answer |};
    {| libraries := Demo.answering; typed := [];
       widgets := asking executive_summary |};
    {| libraries := Demo.answering; typed := []; widgets := clearing |} ].

End Sample.

(** ** Proof tools *)

(** Linear arithmetic over [N] with division and remainder by constants. *)
Ltac arith :=
  zify; Z.to_euclidean_division_equations; lia.

(** Decide the comparisons of the goal by arithmetic. *)
Ltac bool_arith :=
  repeat match goal with
  | |- context [N.ltb ?a ?b] => destruct (N.ltb_spec a b); try arith
  | |- context [N.leb ?a ?b] => destruct (N.leb_spec a b); try arith
  end.

(** * Properties *)

(** ** Facts about the string primitives *)

Lemma decode_cons (b0 : N) (t0 : list N) :
  decode (b0 :: t0) =
    if b0 <? 0x80 then cons b0 <$> decode t0
    else if b0 <? 0xC0 then None
    else if b0 <? 0xE0 then
      match t0 with
      | b1 :: t1 =>
          let c := (b0 - 0xC0) * 64 + (b1 - 0x80) in
          if is_cont b1 && (0x80 <=? c)
          then cons c <$> decode t1 else None
      | _ => None
      end
    else if b0 <? 0xF0 then
      match t0 with
      | b1 :: b2 :: t2 =>
          let c := (b0 - 0xE0) * 4096 + (b1 - 0x80) * 64 + (b2 - 0x80) in
          if is_cont b1 && is_cont b2 && (0x800 <=? c)
             && negb (is_surrogate c)
          then cons c <$> decode t2 else None
      | _ => None
      end
    else if b0 <? 0xF8 then
      match t0 with
      | b1 :: b2 :: b3 :: t3 =>
          let c := (b0 - 0xF0) * 262144 + (b1 - 0x80) * 4096
                   + (b2 - 0x80) * 64 + (b3 - 0x80) in
          if is_cont b1 && is_cont b2 && is_cont b3
             && (0x10000 <=? c) && (c <? 0x110000)
          then cons c <$> decode t3 else None
      | _ => None
      end
    else None.
Proof. reflexivity. Qed.

(** One encoded character is read back, whatever follows it. *)
Lemma decode_encode_char (c : N) (b r : list N) :
  encode_char c = Some b ->
  decode (b ++ r) = cons c <$> decode r.
Proof.
  unfold encode_char, is_surrogate.
  destruct (N.ltb_spec c 0x80).
  { intros [= <-]. change ([c] ++ r) with (c :: r). rewrite decode_cons.
    bool_arith. reflexivity. }
  destruct (N.ltb_spec c 0x800).
  { intros [= <-].
    change (decode ((0xC0 + c / 64) :: (0x80 + c mod 64) :: r)
            = cons c <$> decode r).
    rewrite decode_cons. cbv zeta. unfold is_cont.
    replace ((0xC0 + c / 64 - 0xC0) * 64 + (0x80 + c mod 64 - 0x80)) with c
      by arith.
    bool_arith. reflexivity. }
  destruct (N.ltb_spec c 0x10000).
  { destruct (N.leb_spec 0xD800 c), (N.leb_spec c 0xDFFF);
      cbn [andb]; try discriminate; intros [= <-].
    all: change (decode ((0xE0 + c / 4096) :: (0x80 + (c / 64) mod 64)
                           :: (0x80 + c mod 64) :: r)
                 = cons c <$> decode r).
    all: rewrite decode_cons; cbv zeta; unfold is_cont, is_surrogate.
    all: replace ((0xE0 + c / 4096 - 0xE0) * 4096
                  + (0x80 + (c / 64) mod 64 - 0x80) * 64
                  + (0x80 + c mod 64 - 0x80)) with c by arith.
    all: bool_arith; reflexivity. }
  destruct (N.ltb_spec c 0x110000); [|discriminate].
  intros [= <-].
  change (decode ((0xF0 + c / 262144) :: (0x80 + (c / 4096) mod 64)
                    :: (0x80 + (c / 64) mod 64) :: (0x80 + c mod 64) :: r)
          = cons c <$> decode r).
  rewrite decode_cons; cbv zeta; unfold is_cont.
  replace ((0xF0 + c / 262144 - 0xF0) * 262144
           + (0x80 + (c / 4096) mod 64 - 0x80) * 4096
           + (0x80 + (c / 64) mod 64 - 0x80) * 64
           + (0x80 + c mod 64 - 0x80)) with c by arith.
  bool_arith; reflexivity.
Qed.

Lemma decode_encode (s b : list N) :
  encode s = Some b -> decode b = Some s.
Proof.
  revert b. induction s as [|c s IH]; intros b.
  - intros [= <-]. reflexivity.
  - cbn [encode].
    destruct (encode_char c) as [bc|] eqn:Hc; [|discriminate].
    destruct (encode s) as [bs|]; [|discriminate].
    intros [= <-]. rewrite (decode_encode_char c bc bs Hc), (IH bs eq_refl).
    reflexivity.
Qed.

Lemma encode_char_scalar (c : N) :
  is_scalar c = true -> is_Some (encode_char c).
Proof.
  unfold is_scalar, encode_char. intros [Hlt Hs]%andb_true_iff.
  apply negb_true_iff in Hs. rewrite Hs, Hlt.
  repeat case_match; eauto.
Qed.

Lemma encode_scalar (s : list N) :
  forallb is_scalar s = true -> is_Some (encode s).
Proof.
  induction s as [|c s IH]; cbn [forallb encode]; [eauto|].
  intros [Hc Hs]%andb_true_iff.
  destruct (encode_char_scalar c Hc) as [bc ->].
  destruct (IH Hs) as [bs ->]. eauto.
Qed.


(** ** Running the handlers *)

(** The store after the fifteen assignments shared by both handlers. *)
Lemma clear_results_and_inputs_run (st : gmap string value) :
  clear_results_and_inputs st =
    (Normal tt,
     <["compare_input_tab" := VStr []]> (<["clause_select_tab" := VStr []]>
     (<["q_a_input_tab" := VStr []]> (<["sentiment_result" := VStr []]>
     (<["jurisdiction_result" := VStr []]> (<["comparison_result" := VStr []]>
     (<["risk_opportunity_result" := VStr []]> (<["outline_result" := VStr []]>
     (<["glossary_result" := VStr []]>
     (<["obligations_rights_result" := VStr []]>
     (<["entities_result" := VStr []]>
     (<["clause_explanation_result" := VStr []]>
     (<["qa_answer_result" := VStr []]> (<["takeaways_result" := VStr []]>
     (<["summary_result" := VStr []]> st)))))))))))))),
     []).
Proof. reflexivity. Qed.

Lemma cleared_result (g : feature) (st : gmap string value) :
  state_of (clear_results_and_inputs st) !! result_key g = Some (VStr []).
Proof.
  rewrite clear_results_and_inputs_run. unfold state_of. cbn [fst snd].
  destruct g; cbn [result_key]; by simplify_map_eq.
Qed.

Lemma cleared_input (k : string) (st : gmap string value) :
  k ∈ input_keys ->
  state_of (clear_results_and_inputs st) !! k = Some (VStr []).
Proof.
  rewrite clear_results_and_inputs_run. unfold state_of, input_keys.
  cbn [fst snd]. rewrite !elem_of_cons, elem_of_nil.
  intros [->|[->|[->|[]]]]; by simplify_map_eq.
Qed.

Lemma cleared_document_keys (k : string) (st : gmap string value) :
  k = "full_text" \/ k = "uploaded_file_name" ->
  state_of (clear_results_and_inputs st) !! k = st !! k.
Proof.
  rewrite clear_results_and_inputs_run. unfold state_of. cbn [fst snd].
  intros [->| ->]; by simplify_map_eq.
Qed.

Section Load.

Variable C : Collaborators.

(** The test of line 243 holds exactly when the stored name is not the name
    of the file in the uploader. *)
Lemma new_upload_test (f : UploadedFile) (st : gmap string value) :
  is_none (default VNone (st !! "uploaded_file_name"))
  || negb (bool_decide (default VNone (st !! "uploaded_file_name")
                        = VStr (name f)))
  = negb (bool_decide (st !! "uploaded_file_name" = Some (VStr (name f)))).
Proof.
  destruct (st !! "uploaded_file_name") as [[|s]|]; cbn [default is_none orb].
  - rewrite bool_decide_eq_false_2 by discriminate. reflexivity.
  - destruct (decide (s = name f)) as [->|Hne].
    + rewrite !bool_decide_eq_true_2 by reflexivity. reflexivity.
    + rewrite (bool_decide_eq_false_2 (VStr s = VStr (name f)))
        by (intros [= E]; exact (Hne E)).
      rewrite (bool_decide_eq_false_2 (Some (VStr s) = Some (VStr (name f))))
        by (intros [= E]; exact (Hne E)).
      reflexivity.
  - rewrite bool_decide_eq_false_2 by discriminate. reflexivity.
Qed.

(** A new upload: the name, the extracted text, then the fifteen resets;
    the notices are those of the extraction. *)
Lemma LoadDocument_new (f : UploadedFile) (ocr : bool)
    (st : gmap string value) :
  st !! "uploaded_file_name" <> Some (VStr (name f)) ->
  LoadDocument C f ocr st =
    (Normal tt,
     state_of (clear_results_and_inputs
       (<["full_text" := VStr (process_document C f ocr).1]>
          (<["uploaded_file_name" := VStr (name f)]> st))),
     (process_document C f ocr).2).
Proof.
  intros Hnew. unfold LoadDocument, upload_handler, bind, getattr.
  rewrite new_upload_test, bool_decide_eq_false_2 by exact Hnew.
  cbn [negb]. unfold setattr, spinner.
  rewrite clear_results_and_inputs_run. unfold state_of. cbn [fst snd].
  rewrite !app_nil_r. reflexivity.
Qed.

(** After a new upload the store holds the name of the file and the text
    that the extraction produced, so that an upload under another name is
    new again. *)
Lemma LoadDocument_new_document (f : UploadedFile) (ocr : bool)
    (st : gmap string value) :
  st !! "uploaded_file_name" <> Some (VStr (name f)) ->
  state_of (LoadDocument C f ocr st) !! "uploaded_file_name"
    = Some (VStr (name f))
  /\ state_of (LoadDocument C f ocr st) !! "full_text"
     = Some (VStr (process_document C f ocr).1).
Proof.
  intros Hnew. rewrite (LoadDocument_new f ocr st Hnew).
  unfold state_of at 1 3. cbn [fst snd].
  rewrite !cleared_document_keys by auto. split; by simplify_map_eq.
Qed.

Lemma LoadDocument_same (f : UploadedFile) (ocr : bool)
    (st : gmap string value) :
  st !! "uploaded_file_name" = Some (VStr (name f)) ->
  LoadDocument C f ocr st = (Normal tt, st, []).
Proof.
  intros Hsame. unfold LoadDocument, upload_handler, bind, getattr.
  rewrite new_upload_test, bool_decide_eq_true_2 by exact Hsame.
  reflexivity.
Qed.

(** X23: where the text is assembled only after the last library call
    returned (OCR, DOCX, TXT), a failure leaves the text empty. *)
Lemma process_document_failure_empty (f : UploadedFile) (ocr : bool) :
  ocr = true \/ file_type_of C (name f) <> lit "pdf" ->
  (exists msg, Notice error msg ∈ (process_document C f ocr).2) ->
  (process_document C f ocr).1 = [].
Proof.
  intros Hpath [msg Hin]. revert Hin. unfold process_document.
  repeat case_bool_decide; repeat case_match; subst; cbn [fst snd];
    try reflexivity; try (destruct Hpath; congruence).
  all: rewrite ?elem_of_cons, ?elem_of_nil; intros Hin;
    repeat (destruct Hin as [Hin|Hin]); try discriminate; try done.
Qed.

End Load.

Lemma no_calls_nil : no_calls [].
Proof. intros r Hin. by apply elem_of_nil in Hin. Qed.

Lemma no_calls_notice (l : level) (msg : string) (t : list event) :
  no_calls t -> no_calls (Notice l msg :: t).
Proof.
  intros Ht r Hin. apply elem_of_cons in Hin as [Heq|Hin]; [discriminate|].
  exact (Ht r Hin).
Qed.

#[local] Hint Resolve no_calls_nil no_calls_notice : core.

(** Reading a key changes nothing and shows nothing. *)
Lemma bind_getattr {B} (k : string) (g : value -> M B)
    (st : gmap string value) :
  bind (getattr k) g st = g (default VNone (st !! k)) st.
Proof.
  unfold bind, getattr. destruct (g _ st) as [[b st2] t2]. reflexivity.
Qed.

Lemma bind_ret {A B} (a : A) (g : A -> M B) (st : gmap string value) :
  bind (ret a) g st = g a st.
Proof.
  unfold bind, ret. destruct (g a st) as [[b st2] t2]. reflexivity.
Qed.

Lemma bind_setattr {B} (k : string) (v : value) (g : unit -> M B)
    (st : gmap string value) :
  bind (setattr k v) g st = g tt (<[k := v]> st).
Proof.
  unfold bind, setattr. destruct (g tt _) as [[b st2] t2]. reflexivity.
Qed.

(** *** The select box *)

Lemma after_select_box_other (f : feature) (full_text : list N)
    (st : gmap string value) :
  f <> clause_explanation -> after_select_box f full_text st = st.
Proof. by destruct f. Qed.

Lemma after_select_box_none (f : feature) (full_text : list N)
    (st : gmap string value) :
  clauses full_text = [] -> after_select_box f full_text st = st.
Proof. intros Hnone. unfold after_select_box. rewrite Hnone. by destruct f. Qed.

Lemma after_select_box_clause (full_text : list N) (st : gmap string value) :
  clauses full_text <> [] ->
  after_select_box clause_explanation full_text st
  = <["clause_select_tab" := VStr (selection full_text st)]> st.
Proof.
  intros Hsome. unfold after_select_box.
  by destruct (clauses full_text).
Qed.

(** The select box writes its own key only. *)
Lemma after_select_box_lookup (f : feature) (full_text : list N)
    (st : gmap string value) (k : string) :
  (f = clause_explanation -> k <> "clause_select_tab") ->
  after_select_box f full_text st !! k = st !! k.
Proof.
  intros Hk. destruct (decide (f = clause_explanation)) as [->|Hf];
    [|by rewrite after_select_box_other].
  unfold after_select_box. destruct (clauses full_text); [done|].
  apply lookup_insert_ne. intros Heq. by apply Hk.
Qed.

Lemma after_select_box_is_Some (f : feature) (full_text : list N)
    (st : gmap string value) (k : string) :
  is_Some (st !! k) -> is_Some (after_select_box f full_text st !! k).
Proof.
  intros Hk. unfold after_select_box.
  destruct f, (clauses full_text); try exact Hk.
  apply lookup_insert_is_Some.
  destruct (decide ("clause_select_tab" = k)); auto.
Qed.

Lemma clauses_of_empty : clauses [] = [].
Proof. reflexivity. Qed.

Section Blocks.

Variable C : Collaborators.
Variable catalog : feature -> descriptor.

Lemma ask_outcome (f : feature) (persona prompt : list N) (temp tokens : N)
    (done_msg unexpected : string) (st : gmap string value) :
  block_outcome C f st
    (ask C (result_key f) persona prompt temp tokens done_msg unexpected st).
Proof.
  unfold ask, bind, emit, setattr, st_success, st_error, st_info, emit, raise.
  destruct (chat_completions_create C _)
    as [[content|]|[code|] [resp|]|e] eqn:Hcall; cbn [app].
  all: first
    [ apply block_crashed; rewrite Hcall; reflexivity
    | apply block_called; auto; rewrite Hcall; try discriminate;
      reflexivity ].
Qed.

Lemma spec_block_outcome (w : Widgets) (full_text : list N) (f : feature)
    (input_key : option string) (st : gmap string value) :
  block_outcome C f st (spec_block C catalog w full_text f input_key st).
Proof.
  unfold spec_block.
  destruct input_key as [k|]; rewrite ?bind_getattr, ?bind_ret;
    (destruct (button w f && _); [|apply block_idle; auto]).
  all: unfold bind, emit, setattr, st_error, emit.
  all: destruct (chat_completions_create C _) as [[content|]| |] eqn:Hcall;
    cbn [app]; apply block_called; auto; rewrite Hcall; try discriminate;
    reflexivity.
Qed.

Lemma block_outcome_holds (w : Widgets) (full_text : list N) (f : feature)
    (st : gmap string value) :
  block_outcome C f (after_select_box f full_text st)
    (block C catalog w full_text f st).
Proof.
  destruct (decide (f = clause_explanation)) as [->|Hf];
    [|rewrite (after_select_box_other f full_text st Hf)].
  { cbn [block]. unfold tab_clause. case_bool_decide as Hcl; cbn [negb].
    - rewrite (after_select_box_clause full_text st Hcl).
      rewrite bind_getattr, bind_setattr. destruct (button w _);
        [apply (ask_outcome clause_explanation)|apply block_idle; auto].
    - rewrite after_select_box_none
        by (by destruct (clauses full_text); [|destruct Hcl]).
      apply block_idle. unfold st_warning. auto. }
  destruct f; cbn [block]; try apply spec_block_outcome.
  - unfold summary_block. destruct (button w _);
      [apply (ask_outcome executive_summary)|apply block_idle; auto].
  - unfold takeaways_block. destruct (button w _);
      [apply (ask_outcome key_takeaways)|apply block_idle; auto].
  - unfold tab_qa. rewrite bind_getattr.
    destruct (button w _ && _);
      [apply (ask_outcome qa_answer)|apply block_idle; auto].
  - done.
  - unfold tab_entities. destruct (button w _);
      [apply (ask_outcome entity_extraction)|apply block_idle; auto].
  - unfold tab_obligations. destruct (button w _);
      [apply (ask_outcome obligations_rights)|apply block_idle; auto].
  - unfold tab_glossary. destruct (button w _);
      [apply (ask_outcome glossary)|apply block_idle; auto].
  - unfold tab_outline. destruct (button w _);
      [apply (ask_outcome outline)|apply block_idle; auto].
  - unfold risk_block. destruct (button w _);
      [apply (ask_outcome risk_opportunity)|apply block_idle; auto].
Qed.

Lemma RunFeature_outcome (persona : list N) (f : feature)
    (st : gmap string value) :
  block_outcome C f
    (after_select_box f (as_str (default VNone (st !! "full_text"))) st)
    (RunFeature C catalog persona f st).
Proof.
  unfold RunFeature. rewrite bind_getattr.
  destruct (truthy _) eqn:Hdoc.
  - apply block_outcome_holds.
  - rewrite after_select_box_none; [apply block_idle; auto|].
    by destruct (default VNone (st !! "full_text")) as [|[|c s]].
Qed.

End Blocks.

(** ** LoadDocument and ClearDocument *)

Example demo_loaded_text :
  Demo.loaded !! "full_text" = Some (VStr Demo.lease_clause).
Proof. vm_compute. reflexivity. Qed.

Example demo_answered :
  Demo.answered !! "qa_answer_result"
  = Some (VStr (lit "The rent is due monthly.")).
Proof. vm_compute. reflexivity. Qed.

(** C1: an upload whose file name differs from the stored one leaves all
    twelve result keys and all three input keys holding the empty string,
    whatever they held before. *)
Theorem LoadDocument_new_resets_all (C : Collaborators) (f : UploadedFile)
    (ocr : bool) (st : gmap string value) :
  st !! "uploaded_file_name" <> Some (VStr (name f)) ->
  (forall g : feature,
     state_of (LoadDocument C f ocr st) !! result_key g = Some (VStr []))
  /\ (forall k : string, k ∈ input_keys ->
        state_of (LoadDocument C f ocr st) !! k = Some (VStr [])).
Proof.
  intros Hnew. rewrite (LoadDocument_new C f ocr st Hnew).
  unfold state_of at 1 3. cbn [fst snd]. split.
  - intros g. apply cleared_result.
  - intros k Hk. apply cleared_input, Hk.
Qed.

Lemma LoadDocument_new_resets_all_witness :
  Demo.answered !! "qa_answer_result" <> Some (VStr [])
  /\ Demo.answered !! "q_a_input_tab" <> Some (VStr [])
  /\ (forall g : feature,
        state_of (LoadDocument Demo.answering Demo.amendment false
                    Demo.answered) !! result_key g = Some (VStr []))
  /\ (forall k : string, k ∈ input_keys ->
        state_of (LoadDocument Demo.answering Demo.amendment false
                    Demo.answered) !! k = Some (VStr [])).
Proof.
  split; [vm_compute; discriminate|].
  split; [vm_compute; discriminate|].
  apply LoadDocument_new_resets_all. vm_compute. discriminate.
Defined.

(** C2: an upload with the stored file name changes nothing: the store is
    the same (text, name, every result, every input) and nothing is
    extracted or shown, whatever the libraries would do. *)
Theorem LoadDocument_same_noop (C : Collaborators) (f : UploadedFile)
    (ocr : bool) (st : gmap string value) :
  st !! "uploaded_file_name" = Some (VStr (name f)) ->
  LoadDocument C f ocr st = (Normal tt, st, []).
Proof. apply LoadDocument_same. Qed.

Lemma LoadDocument_same_noop_witness :
  LoadDocument Demo.rate_limited Demo.lease true Demo.answered
  = (Normal tt, Demo.answered, []).
Proof. apply LoadDocument_same_noop. vm_compute. reflexivity. Defined.

(** From any store, the assignments of the clear button leave the text
    empty, the file name [None], and every result and every input empty. *)
Lemma clear_handler_clears_all (st : gmap string value) :
  state_of (clear_handler st) !! "full_text" = Some (VStr [])
  /\ state_of (clear_handler st) !! "uploaded_file_name" = Some VNone
  /\ (forall g : feature,
        state_of (clear_handler st) !! result_key g = Some (VStr []))
  /\ (forall k : string, k ∈ input_keys ->
        state_of (clear_handler st) !! k = Some (VStr [])).
Proof.
  assert (Hrun : state_of (clear_handler st)
                 = state_of (clear_results_and_inputs
                     (<["uploaded_file_name" := VNone]>
                        (<["full_text" := VStr []]> st)))).
  { unfold clear_handler, bind, setattr.
    rewrite !clear_results_and_inputs_run. reflexivity. }
  rewrite Hrun. repeat split.
  - rewrite cleared_document_keys by (left; reflexivity). by simplify_map_eq.
  - rewrite cleared_document_keys by (right; reflexivity). by simplify_map_eq.
  - intros g. apply cleared_result.
  - intros k Hk. apply cleared_input, Hk.
Qed.

(** C3: the clear button does not leave the document empty while the
    uploader holds a file.  Its handler empties the store, and the run that
    its [st.rerun()] starts finds the file of the uploader under a name that
    is not the stored [None] and loads it again: after ClearDocument the
    text is the text of the file and not empty, the name of the file is
    stored, and the select box holds the first clause.  The results are
    empty, as claimed. *)
Theorem ClearDocument_reloads_document :
  let r := ClearDocument Demo.answering Demo.catalog Sample.clear_clicked
             Demo.answered in
  Demo.answered !! "uploaded_file_name" = Some (VStr (name Demo.lease))
  /\ uploaded_file Sample.clear_clicked = Some Demo.lease
  /\ state_of (clear_handler Demo.answered) !! "full_text" = Some (VStr [])
  /\ ending_of r = Normal false
  /\ trace_of r = [Notice success "Text extracted from TXT."]
  /\ state_of r !! "full_text" = Some (VStr Demo.lease_clause)
  /\ state_of r !! "full_text" <> Some (VStr [])
  /\ state_of r !! "uploaded_file_name" = Some (VStr (name Demo.lease))
  /\ state_of r !! "uploaded_file_name" <> Some VNone
  /\ state_of r !! "clause_select_tab" = Some (VStr Demo.lease_clause)
  /\ state_of r !! "clause_select_tab" <> Some (VStr [])
  /\ (forall g : feature, state_of r !! result_key g = Some (VStr [])).
Proof.
  vm_compute. repeat split; try discriminate.
  intros g. destruct g; reflexivity.
Qed.

(** C5: a PDF read without OCR whose second page fails keeps the text of
    the first page: the text is not empty after the failed extraction.  The
    name is stored and the results are reset all the same. *)
Theorem LoadDocument_failed_pdf_keeps_pages :
  let r := LoadDocument Demo.answering Demo.damaged false Demo.answered in
  state_of r !! "full_text" = Some (VStr (lit "Page one."))
  /\ state_of r !! "full_text" <> Some (VStr [])
  /\ trace_of r = pdf_failed "cannot load page 2"
  /\ state_of r !! "uploaded_file_name" = Some (VStr (name Demo.damaged))
  /\ state_of r !! "qa_answer_result" = Some (VStr []).
Proof. vm_compute. repeat split. discriminate. Qed.

(** ** RunFeature *)

(** C4, as stated, fails: in a new session (no document) a click on the
    summary button signals nothing at all. *)
Lemma RunFeature_empty_document_silent :
  Demo.fresh !! "full_text" = Some (VStr [])
  /\ signals_problem
       (RunFeature Demo.answering Demo.catalog Demo.persona
          executive_summary Demo.fresh) = false.
Proof. vm_compute. split; reflexivity. Qed.

(** C4, amended: with an empty document text, RunFeature of any feature
    does nothing: the store is unchanged, no call is made and nothing is
    shown (the gate of line 341 skips every block; no violation is
    raised). *)
Theorem RunFeature_empty_document_ignored (C : Collaborators)
    (catalog : feature -> descriptor) (persona : list N) (f : feature)
    (st : gmap string value) :
  st !! "full_text" = Some (VStr []) ->
  RunFeature C catalog persona f st = (Normal tt, st, []).
Proof.
  intros Hempty. unfold RunFeature. rewrite bind_getattr, Hempty.
  reflexivity.
Qed.

Lemma RunFeature_empty_document_ignored_witness :
  RunFeature Demo.answering Demo.catalog Demo.persona clause_explanation
    Demo.fresh = (Normal tt, Demo.fresh, []).
Proof.
  apply RunFeature_empty_document_ignored. vm_compute. reflexivity.
Defined.

(** X24: however it ends, a RunFeature touches no key other than the
    result key of its feature and, in the clause tab, the key of the select
    box, under which the box stores the option that it shows: the document,
    the other inputs and the other results are as they were. *)
Lemma RunFeature_frame (C : Collaborators)
    (catalog : feature -> descriptor) (persona : list N) (f : feature)
    (st : gmap string value) (k : string) :
  k <> result_key f ->
  state_of (RunFeature C catalog persona f st) !! k
  = after_select_box f (as_str (default VNone (st !! "full_text"))) st !! k
  /\ ((f = clause_explanation -> k <> "clause_select_tab") ->
      state_of (RunFeature C catalog persona f st) !! k = st !! k).
Proof.
  intros Hk.
  assert (Hrun : state_of (RunFeature C catalog persona f st) !! k
                 = after_select_box f
                     (as_str (default VNone (st !! "full_text"))) st !! k).
  { destruct (RunFeature_outcome C catalog persona f st);
      unfold state_of; cbn [fst snd]; try reflexivity.
    apply lookup_insert_ne. congruence. }
  split; [exact Hrun|].
  intros Hsel. rewrite Hrun. by apply after_select_box_lookup.
Qed.

(** X25: when the model call raised and its handler ran to its end, the
    result key of the feature holds the empty string afterwards, whatever
    it held before. *)
Lemma RunFeature_reported_failure_clears_own_slot (C : Collaborators)
    (catalog : feature -> descriptor) (persona : list N) (f : feature)
    (st : gmap string value) (r : request) :
  EngineCall r ∈ trace_of (RunFeature C catalog persona f st) ->
  raised (chat_completions_create C r) = true ->
  ending_of (RunFeature C catalog persona f st) = Normal tt ->
  state_of (RunFeature C catalog persona f st) !! result_key f
    = Some (VStr []).
Proof.
  destruct (RunFeature_outcome C catalog persona f st)
    as [t Ht|req content t Ht Hfail|req e Hreq];
    unfold trace_of, state_of, ending_of; cbn [fst snd].
  - intros Hin _ _. destruct (Ht r Hin).
  - intros Hin Hr _. apply elem_of_cons in Hin as [Heq|Hin];
      [|destruct (Ht r Hin)].
    injection Heq as ->. rewrite (Hfail Hr). apply lookup_insert_eq.
  - intros _ _ [=].
Qed.

(** An error status returned by the API is reported and clears the
    answer. *)
Example RunFeature_rate_limited :
  let r := RunFeature Demo.rate_limited Demo.catalog Demo.persona qa_answer
             Demo.answered in
  ending_of r = Normal tt
  /\ state_of r !! "qa_answer_result" = Some (VStr [])
  /\ trace_of r =
       [ EngineCall Demo.question;
         Notice error "OpenAI API Error: 429 - Rate limit reached";
         Notice info "Please check your API key and network connection." ].
Proof. vm_compute. repeat split. Qed.

(** C6: with the network down the model call raises a connection error;
    the first handler catches it and fails on reading its status code, so
    the run ends there and the result key still holds the answer of the
    previous run: it is not set to the empty string. *)
Theorem RunFeature_connection_error_keeps_answer :
  let r := RunFeature Demo.offline Demo.catalog Demo.persona qa_answer
             Demo.answered in
  trace_of r = [EngineCall Demo.question]
  /\ raised (chat_completions_create Demo.offline Demo.question) = true
  /\ ending_of r
     = Uncaught "AttributeError: the exception has no attribute 'status_code'"
  /\ state_of r !! result_key qa_answer
     = Some (VStr (lit "The rent is due monthly."))
  /\ state_of r !! result_key qa_answer <> Some (VStr []).
Proof. vm_compute. repeat split. discriminate. Qed.

(** C7, as stated, fails: with a document loaded and no question typed, a
    click on the answer button signals nothing. *)
Lemma RunFeature_qa_without_question_silent :
  Demo.loaded !! "q_a_input_tab" = Some (VStr [])
  /\ signals_problem
       (RunFeature Demo.answering Demo.catalog Demo.persona qa_answer
          Demo.loaded) = false.
Proof. vm_compute. split; reflexivity. Qed.

(** C7, amended: with an empty question, RunFeature of qa-answer does
    nothing: the store (the answer included) is unchanged, no call is made
    and nothing is shown (the guard of line 362 skips the call; no
    violation is raised). *)
Theorem RunFeature_qa_without_question_ignored (C : Collaborators)
    (catalog : feature -> descriptor) (persona : list N)
    (st : gmap string value) :
  st !! "q_a_input_tab" = Some (VStr []) ->
  RunFeature C catalog persona qa_answer st = (Normal tt, st, []).
Proof.
  intros Hempty. unfold RunFeature. rewrite bind_getattr.
  destruct (truthy _); [|reflexivity].
  cbn [block]. unfold tab_qa. rewrite bind_getattr, Hempty.
  cbn [default as_str nonempty]. rewrite andb_false_r. reflexivity.
Qed.

Lemma RunFeature_qa_without_question_ignored_witness :
  Demo.loaded !! "full_text" = Some (VStr Demo.lease_clause)
  /\ RunFeature Demo.answering Demo.catalog Demo.persona qa_answer
       Demo.loaded = (Normal tt, Demo.loaded, []).
Proof.
  split; [vm_compute; reflexivity|].
  apply RunFeature_qa_without_question_ignored. vm_compute. reflexivity.
Defined.

(** ** The TXT download *)

(** C9: for every content string (of Unicode scalar values), the TXT
    download serves bytes that decode to exactly that string, whatever the
    label, the file name and the MIME type. *)
Theorem txt_download_roundtrip (content : list N)
    (label file_name mime : string) :
  forallb is_scalar content = true ->
  exists b : list N,
    download_button label content file_name mime = Some b
    /\ decode b = Some content
    /\ (forall label' file_name' mime' : string,
          download_button label' content file_name' mime' = Some b).
Proof.
  intros Htext. unfold download_button.
  destruct (encode_scalar content Htext) as [b Hb].
  exists b. split; [exact Hb|]. split; [apply decode_encode, Hb|].
  intros _ _ _. exact Hb.
Qed.

Lemma txt_download_roundtrip_witness :
  exists b : list N,
    download_button "Download Q&A (TXT)" Demo.symbols "qa_answer.txt"
      "text/plain" = Some b
    /\ decode b = Some Demo.symbols
    /\ (forall label' file_name' mime' : string,
          download_button label' Demo.symbols file_name' mime' = Some b).
Proof. apply txt_download_roundtrip. vm_compute. reflexivity. Defined.

(** X26: the TXT download of the Q&A tab serves the stored answer: its
    bytes decode to the answer. *)
Lemma download_qa_txt_tab_roundtrip (st : gmap string value)
    (answer : list N) :
  st !! "qa_answer_result" = Some (VStr answer) ->
  answer <> [] ->
  forallb is_scalar answer = true ->
  exists b : list N,
    download_qa_txt_tab st = Some b /\ decode b = Some answer.
Proof.
  intros Hst Hne Htext. unfold download_qa_txt_tab. rewrite Hst.
  cbn [default truthy as_str]. destruct answer as [|c rest]; [done|].
  cbn [nonempty]. unfold download_button.
  destruct (encode_scalar _ Htext) as [b Hb].
  exists b. split; [exact Hb|]. apply decode_encode, Hb.
Qed.

Example txt_download_symbols :
  download_button "Download Q&A (TXT)" Demo.symbols "qa_answer.txt"
    "text/plain"
  = Some [0xC2; 0xA7; 0x20; 0xE2; 0x82; 0xAC; 0x20; 0xF0; 0x9F; 0x93; 0x84].
Proof. vm_compute. reflexivity. Qed.

(** ** The clause list *)

Lemma clauses_filter (segments : list (list N)) :
  flat_map
    (fun p => if bool_decide (50 < length (strip p))%nat then [strip p] else [])
    segments
  = strip <$> filter (fun p => (50 < length (strip p))%nat) segments.
Proof.
  induction segments as [|p l IH]; [reflexivity|].
  cbn [flat_map]. rewrite filter_cons, IH.
  case_bool_decide; case_decide; try contradiction; reflexivity.
Qed.

(** C10, as stated, fails: in a text with CR LF line ends the long segment
    ends in a carriage return, and the clause offered is that segment
    without it. *)
Lemma clauses_not_the_segments :
  segments_over_50 Demo.crlf_text = [Demo.lease_clause ++ [0x0D]]
  /\ clauses Demo.crlf_text = [Demo.lease_clause]
  /\ clauses Demo.crlf_text <> segments_over_50 Demo.crlf_text.
Proof. vm_compute. repeat split. discriminate. Qed.

(** C10, amended: the clauses offered are the stripped forms of the
    newline-separated segments whose stripped length exceeds 50, in document
    order; when there is none, the clause tab only shows its warning:
    whatever is clicked, no call is made and the store is unchanged. *)
Theorem clauses_offered (full_text : list N) :
  clauses full_text = strip <$> segments_over_50 full_text
  /\ (segments_over_50 full_text = [] ->
      forall (C : Collaborators) (catalog : feature -> descriptor)
             (w : Widgets) (st : gmap string value),
        block C catalog w full_text clause_explanation st
        = (Normal tt, st,
           [Notice warning
              ("No substantial clauses (paragraphs longer than 50 "
               +:+ "characters) were found for individual explanation.")])).
Proof.
  assert (Heq : clauses full_text = strip <$> segments_over_50 full_text)
    by apply clauses_filter.
  split; [exact Heq|].
  intros Hnone C catalog w st. cbn [block]. unfold tab_clause.
  rewrite Heq, Hnone. reflexivity.
Qed.

Lemma clauses_offered_witness :
  clauses Demo.short_text = []
  /\ block Demo.answering Demo.catalog
       (click Demo.persona clause_explanation) Demo.short_text
       clause_explanation Demo.loaded
     = (Normal tt, Demo.loaded,
        [Notice warning
           ("No substantial clauses (paragraphs longer than 50 "
            +:+ "characters) were found for individual explanation.")]).
Proof.
  destruct (clauses_offered Demo.short_text) as [Heq Hnone].
  split; [vm_compute; reflexivity|].
  apply Hnone. vm_compute. reflexivity.
Defined.

Example clauses_of_lease :
  clauses Demo.lease_clause = [Demo.lease_clause]
  /\ length Demo.lease_clause = 61%nat.
Proof. vm_compute. split; reflexivity. Qed.

(** ** The script and the transitions

    What one run of the script on an initialised store has to do with the
    transitions: the upload handler, the clear handler and the block of the
    button that was clicked, with the select box of the clause tab and the
    displays of the results around them. *)

Lemma state_of_bind {A B} (m : M A) (g : A -> M B) (st : gmap string value) :
  state_of (bind m g st) =
    match ending_of (m st) with
    | Normal a => state_of (g a (state_of (m st)))
    | Uncaught _ => state_of (m st)
    end.
Proof.
  unfold bind, state_of, ending_of.
  destruct (m st) as [[[a|e] st1] t1]; cbn [fst snd]; [|reflexivity].
  destruct (g a st1) as [[b st2] t2]. reflexivity.
Qed.

Lemma state_of_bind_ret {A B} (m : M A) (b : B) (st : gmap string value) :
  state_of (bind m (fun _ => ret b) st) = state_of (m st).
Proof.
  unfold bind, ret, state_of.
  destruct (m st) as [[[a|e] st1] t1]; reflexivity.
Qed.

Lemma bind_noop {A B} (m : M A) (g : A -> M B) (a : A)
    (st : gmap string value) :
  m st = (Normal a, st, []) -> bind m g st = g a st.
Proof.
  intros Hm. unfold bind. rewrite Hm.
  destruct (g a st) as [[b st2] t2]. reflexivity.
Qed.

Lemma state_of_bind_setdefault {B} (k : string) (v : value)
    (g : unit -> M B) (st : gmap string value) :
  state_of (bind (setdefault k v) g st)
  = state_of (g tt (state_of (setdefault k v st))).
Proof.
  unfold bind, setdefault, state_of.
  destruct (st !! k); cbn [fst snd];
    destruct (g tt _) as [[b st2] t2]; reflexivity.
Qed.

Lemma setdefault_present (k : string) (v : value) (st : gmap string value) :
  is_Some (st !! k) -> setdefault k v st = (Normal tt, st, []).
Proof. intros [x Hx]. unfold setdefault. rewrite Hx. reflexivity. Qed.

Lemma init_session_state_noop (st : gmap string value) :
  initialised st -> init_session_state st = (Normal tt, st, []).
Proof.
  intros Hinit. unfold init_session_state.
  repeat (rewrite (bind_noop (setdefault _ _) _ tt);
          [|apply setdefault_present, Hinit, (bool_decide_unpack _);
            vm_compute; exact I]).
  apply setdefault_present, Hinit, (bool_decide_unpack _).
  vm_compute. exact I.
Qed.

Lemma setdefault_is_Some (k : string) (v : value) (st : gmap string value) :
  is_Some (state_of (setdefault k v st) !! k).
Proof.
  unfold setdefault, state_of. destruct (st !! k) as [x|] eqn:Hk; cbn [fst snd].
  - rewrite Hk. eauto.
  - rewrite lookup_insert_eq. eauto.
Qed.

Lemma keeps_keys_ret {A} (a : A) : keeps_keys (ret a).
Proof. intros st k Hk. exact Hk. Qed.

Lemma keeps_keys_bind {A B} (m : M A) (g : A -> M B) :
  keeps_keys m -> (forall a, keeps_keys (g a)) -> keeps_keys (bind m g).
Proof.
  intros Hm Hg st k Hk. rewrite state_of_bind.
  destruct (ending_of (m st)); [apply Hg|]; apply Hm, Hk.
Qed.

Lemma keeps_keys_getattr (k : string) : keeps_keys (getattr k).
Proof. intros st k' Hk. exact Hk. Qed.

Lemma keeps_keys_emit (e : event) : keeps_keys (emit e).
Proof. intros st k' Hk. exact Hk. Qed.

Lemma keeps_keys_setattr (k : string) (v : value) : keeps_keys (setattr k v).
Proof.
  intros st k' Hk. unfold setattr, state_of. cbn [fst snd].
  apply lookup_insert_is_Some. destruct (decide (k = k')); auto.
Qed.

Lemma keeps_keys_setdefault (k : string) (v : value) :
  keeps_keys (setdefault k v).
Proof.
  intros st k' Hk. unfold setdefault, state_of.
  destruct (st !! k); cbn [fst snd]; [exact Hk|].
  apply lookup_insert_is_Some. destruct (decide (k = k')); auto.
Qed.

Create HintDb keys.
#[local] Hint Resolve keeps_keys_ret keeps_keys_getattr keeps_keys_emit
  keeps_keys_setattr keeps_keys_setdefault : keys.
#[local] Hint Extern 2 (keeps_keys (bind _ _)) =>
  apply keeps_keys_bind; [|intros ?] : keys.

Lemma keeps_keys_init : keeps_keys init_session_state.
Proof. unfold init_session_state. auto 40 with keys. Qed.

Lemma keeps_keys_clear_results_and_inputs :
  keeps_keys clear_results_and_inputs.
Proof. unfold clear_results_and_inputs. auto 40 with keys. Qed.

Lemma keeps_keys_clear_handler : keeps_keys clear_handler.
Proof.
  unfold clear_handler.
  auto 10 using keeps_keys_clear_results_and_inputs with keys.
Qed.

(** After the initialisation block every key is there, whatever the store
    was. *)
Lemma init_session_state_initialised (st : gmap string value) :
  initialised (state_of (init_session_state st)).
Proof.
  intros k Hk. unfold init_session_state.
  unfold session_keys, all_features, input_keys in Hk.
  cbn [fmap list_fmap app result_key] in Hk.
  rewrite !elem_of_cons, elem_of_nil in Hk.
  repeat
    (rewrite state_of_bind_setdefault;
     destruct Hk as [->|Hk];
     [ match goal with
       | |- is_Some (state_of (?m ?s) !! _) =>
           let H := fresh in
           assert (H : keeps_keys m) by auto 40 with keys;
           apply H, setdefault_is_Some
       end
     | ]).
  destruct Hk as [->|[]]. apply setdefault_is_Some.
Qed.

Lemma trace_of_bind {A B} (m : M A) (g : A -> M B) (st : gmap string value) :
  trace_of (bind m g st) =
    trace_of (m st)
    ++ match ending_of (m st) with
       | Normal a => trace_of (g a (state_of (m st)))
       | Uncaught _ => []
       end.
Proof.
  unfold bind, trace_of, state_of, ending_of.
  destruct (m st) as [[[a|e] st1] t1]; cbn [fst snd];
    [|by rewrite app_nil_r].
  by destruct (g a st1) as [[b st2] t2].
Qed.

Lemma calls_of_app (t1 t2 : list event) :
  calls_of (t1 ++ t2) = calls_of t1 ++ calls_of t2.
Proof. apply omap_app. Qed.

Lemma bind_silent {A B} (m : M A) (g : A -> M B) (a : A)
    (st st' : gmap string value) :
  m st = (Normal a, st', []) -> bind m g st = g a st'.
Proof.
  intros Hm. unfold bind. rewrite Hm.
  by destruct (g a st') as [[b st2] t2].
Qed.

Lemma setdefault_run (k : string) (v : value) (st : gmap string value) :
  setdefault k v st = (Normal tt, state_of (setdefault k v st), []).
Proof. unfold setdefault. by destruct (st !! k). Qed.

Lemma init_session_state_run (st : gmap string value) :
  init_session_state st
  = (Normal tt, state_of (init_session_state st), []).
Proof.
  unfold init_session_state.
  repeat (rewrite (bind_silent (setdefault _ _) _ tt _ _
                     (setdefault_run _ _ _))).
  apply setdefault_run.
Qed.

Lemma clear_handler_run (st : gmap string value) :
  clear_handler st = (Normal tt, state_of (clear_handler st), []).
Proof.
  unfold clear_handler, bind, setattr.
  rewrite !clear_results_and_inputs_run. reflexivity.
Qed.

Lemma ending_of_bind {A B} (m : M A) (g : A -> M B)
    (st : gmap string value) :
  ending_of (bind m g st) =
    match ending_of (m st) with
    | Normal a => ending_of (g a (state_of (m st)))
    | Uncaught e => Uncaught e
    end.
Proof.
  unfold bind, state_of, ending_of.
  destruct (m st) as [[[a|e] st1] t1]; cbn [fst snd]; [|reflexivity].
  destruct (g a st1) as [[b st2] t2]. reflexivity.
Qed.

Section Runs.

Variable C : Collaborators.
Variable catalog : feature -> descriptor.

Lemma upload_handler_no_file (ocr : bool) (st : gmap string value) :
  upload_handler C None ocr st = (Normal tt, st, []).
Proof. unfold upload_handler. rewrite bind_getattr. reflexivity. Qed.

Lemma upload_handler_normal (file : option UploadedFile) (ocr : bool)
    (st : gmap string value) :
  ending_of (upload_handler C file ocr st) = Normal tt.
Proof.
  destruct file as [f|]; [|rewrite upload_handler_no_file; reflexivity].
  change (upload_handler C (Some f) ocr st) with (LoadDocument C f ocr st).
  destruct (decide (st !! "uploaded_file_name" = Some (VStr (name f))))
    as [Hsame|Hnew].
  - rewrite (LoadDocument_same C f ocr st Hsame). reflexivity.
  - rewrite (LoadDocument_new C f ocr st Hnew). reflexivity.
Qed.

Lemma keeps_keys_upload_handler (file : option UploadedFile) (ocr : bool) :
  keeps_keys (upload_handler C file ocr).
Proof.
  unfold upload_handler. apply keeps_keys_bind; [auto with keys|].
  intros stored. destruct file as [f|]; [|auto with keys].
  destruct (is_none stored || _); [|auto with keys].
  apply keeps_keys_bind; [auto with keys|]. intros _.
  apply keeps_keys_bind; [intros st k Hk; exact Hk|]. intros text.
  apply keeps_keys_bind; [auto with keys|]. intros _.
  apply keeps_keys_clear_results_and_inputs.
Qed.

Lemma keeps_keys_block (w : Widgets) (full_text : list N) (f : feature) :
  keeps_keys (block C catalog w full_text f).
Proof.
  intros st k Hk.
  pose proof (after_select_box_is_Some f full_text st k Hk) as Hsel.
  destruct (block_outcome_holds C catalog w full_text f st);
    unfold state_of; cbn [fst snd]; [exact Hsel| |exact Hsel].
  apply lookup_insert_is_Some. destruct (decide (result_key f = k)); auto.
Qed.

(** *** The display *)

(** What the display of a result comes to: nothing when the slot is empty,
    and otherwise the two exports, whose exception ends the run; the store
    is as it was and no notice is shown. *)
Lemma show_closed (f : feature) (st : gmap string value) :
  show C catalog f st =
    (let r := default VNone (st !! result_key f) in
     if truthy r then
       match encode (as_str r) with
       | None => Uncaught "UnicodeEncodeError"
       | Some _ =>
           match create_pdf C (as_str r) (pdf_title catalog f) with
           | Returns _ => Normal tt
           | Raises e => Uncaught e
           end
       end
     else Normal tt,
     st, []).
Proof.
  destruct f; cbn [show result_key];
    unfold show_result, spec_show, download_button;
    rewrite bind_getattr; cbn [result_key];
    destruct (truthy _); try reflexivity;
    destruct (encode _); try reflexivity;
    destruct (create_pdf _ _ _); reflexivity.
Qed.

Lemma show_run (f : feature) (st : gmap string value) :
  exists e : ending unit, show C catalog f st = (e, st, []).
Proof. rewrite show_closed. eauto. Qed.

(** With nothing in the slot, nothing is shown and nothing is exported. *)
Lemma show_empty (f : feature) (st : gmap string value) :
  truthy (default VNone (st !! result_key f)) = false ->
  show C catalog f st = (Normal tt, st, []).
Proof. intros Hempty. rewrite show_closed. cbv zeta. by rewrite Hempty. Qed.

(** The rest of the run follows the display on the same store, unless the
    display ends the run. *)
Lemma bind_show {B} (f : feature) (g : unit -> M B)
    (st : gmap string value) :
  bind (show C catalog f) g st =
    match ending_of (show C catalog f st) with
    | Normal _ => g tt st
    | Uncaught e => (Uncaught e, st, [])
    end.
Proof.
  destruct (show_run f st) as [e Hshow]. unfold bind. rewrite Hshow.
  unfold ending_of. cbn [fst snd]. destruct e as [[]|e]; [|reflexivity].
  by destruct (g tt st) as [[b st2] t2].
Qed.

Lemma keeps_keys_show (f : feature) : keeps_keys (show C catalog f).
Proof.
  intros st k Hk. destruct (show_run f st) as [e ->]. exact Hk.
Qed.

Lemma keeps_keys_run_blocks (w : Widgets) (full_text : list N)
    (fs : list feature) :
  keeps_keys (run_blocks C catalog w full_text fs).
Proof.
  induction fs as [|f fs IH]; cbn [run_blocks]; [auto with keys|].
  apply keeps_keys_bind; [apply keeps_keys_block|]. intros _.
  apply keeps_keys_bind; [apply keeps_keys_show|]. intros _. exact IH.
Qed.

(** X27: every run of the script, from any store, leaves all seventeen
    session keys present, so no read of a later run meets a missing key. *)
Lemma script_initialised (w : Widgets) (st : gmap string value) :
  initialised (state_of (script C catalog w st)).
Proof.
  intros k Hk. unfold script. rewrite state_of_bind.
  pose proof (init_session_state_initialised st k Hk) as Hinit.
  destruct (ending_of (init_session_state st)) as [[]|e]; [|exact Hinit].
  revert Hinit. generalize (state_of (init_session_state st)).
  intros st1 Hinit.
  assert (Hrest : keeps_keys
    (do _ <- upload_handler C (uploaded_file w) (use_ocr w) ;
     do full_text <- getattr "full_text" ;
     if clear_doc_button w then do _ <- clear_handler ; ret true
     else if truthy full_text then
       do _ <- run_blocks C catalog w (as_str full_text) script_order ;
       ret false
     else ret false)).
  { apply keeps_keys_bind; [apply keeps_keys_upload_handler|]. intros _.
    apply keeps_keys_bind; [auto with keys|]. intros full_text.
    destruct (clear_doc_button w).
    - apply keeps_keys_bind; [apply keeps_keys_clear_handler|].
      auto with keys.
    - destruct (truthy full_text); [|auto with keys].
      apply keeps_keys_bind; [apply keeps_keys_run_blocks|]. auto with keys. }
  apply Hrest, Hinit.
Qed.

(** A block whose button is not clicked calls nothing and leaves the store
    as its input widgets left it. *)
Lemma block_unclicked (w : Widgets) (full_text : list N) (g : feature)
    (st : gmap string value) :
  button w g = false ->
  exists t : list event,
    block C catalog w full_text g st
    = (Normal tt, after_select_box g full_text st, t)
    /\ no_calls t.
Proof.
  intros Hg.
  destruct (decide (g = clause_explanation)) as [->|Hne];
    [|rewrite (after_select_box_other g full_text st Hne)].
  { cbn [block]. unfold tab_clause. case_bool_decide as Hcl; cbn [negb].
    - rewrite (after_select_box_clause full_text st Hcl).
      rewrite bind_getattr, bind_setattr, Hg. exists []. split; auto.
    - rewrite after_select_box_none
        by (by destruct (clauses full_text); [|destruct Hcl]).
      eexists. split; [reflexivity|]. auto. }
  destruct g; cbn [block]; try done.
  all: try (unfold summary_block, takeaways_block, tab_entities,
              tab_obligations, tab_glossary, tab_outline, risk_block;
            rewrite Hg; exists []; split; [reflexivity|auto]).
  - unfold tab_qa. rewrite bind_getattr, Hg. exists []. split; auto.
  - unfold spec_block. rewrite bind_getattr, Hg. exists []. split; auto.
  - unfold spec_block. rewrite bind_ret, Hg. exists []. split; auto.
  - unfold spec_block. rewrite bind_ret, Hg. exists []. split; auto.
Qed.

Lemma script_order_complete (f : feature) :
  NoDup script_order /\ f ∈ script_order.
Proof.
  split.
  - apply (bool_decide_unpack _). vm_compute. exact I.
  - apply (bool_decide_unpack _). destruct f; vm_compute; exact I.
Qed.

Lemma clear_handler_initialised (st : gmap string value) :
  initialised st -> initialised (state_of (clear_handler st)).
Proof. intros Hinit k Hk. apply keeps_keys_clear_handler, Hinit, Hk. Qed.

(** X30: a run with the clear button clicked and no file in the uploader
    does what the clear handler does, shows nothing and ends in a rerun;
    and the run that the rerun starts changes and shows nothing more, so
    that ClearDocument leaves the store of the clear handler. *)
Lemma script_clear (w : Widgets) (st : gmap string value) :
  initialised st ->
  uploaded_file w = None ->
  clear_doc_button w = true ->
  script C catalog w st = (Normal true, state_of (clear_handler st), [])
  /\ ClearDocument C catalog w st
     = (Normal false, state_of (clear_handler st), []).
Proof.
  intros Hinit Hfile Hclear. split.
  - unfold script.
    rewrite (bind_noop _ _ tt st (init_session_state_noop st Hinit)).
    rewrite Hfile.
    rewrite (bind_noop _ _ tt st (upload_handler_no_file _ st)).
    rewrite bind_getattr, Hclear.
    unfold clear_handler, bind, setattr.
    rewrite !clear_results_and_inputs_run. reflexivity.
  - unfold ClearDocument.
    rewrite (bind_silent _ _ tt _ _ (clear_handler_run st)).
    pose proof (clear_handler_initialised st Hinit) as Hinit'.
    destruct (clear_handler_clears_all st) as (Htext & _).
    revert Hinit' Htext. generalize (state_of (clear_handler st)).
    intros st1 Hinit' Htext. unfold script.
    rewrite (bind_noop _ _ tt st1 (init_session_state_noop st1 Hinit')).
    cbn [uploaded_file use_ocr clear_doc_button rerun]. rewrite Hfile.
    rewrite (bind_noop _ _ tt st1 (upload_handler_no_file _ st1)).
    rewrite bind_getattr, Htext. reflexivity.
Qed.

End Runs.

(** The uploader keeps its file across the rerun that the clear button
    triggers: the next run sees a file whose name is not the stored [None]
    and loads it again. *)
Example clear_then_rerun_reloads :
  let w clicked :=
    {| uploaded_file := Some Demo.lease; use_ocr := false;
       custom_ai_instruction := Demo.persona; clear_doc_button := clicked;
       button := fun _ => false |} in
  let cleared :=
    script Demo.answering Demo.catalog (w true) Demo.answered in
  ending_of cleared = Normal true
  /\ state_of cleared !! "full_text" = Some (VStr [])
  /\ state_of (script Demo.answering Demo.catalog (w false) (state_of cleared))
       !! "full_text" = Some (VStr Demo.lease_clause).
Proof. vm_compute. repeat split. Qed.

(** * Further properties of the script *)

(** ** Splitting, joining and stripping *)

Lemma split_cons_form (sep : N) (s : list N) :
  exists seg segs, split sep s = seg :: segs.
Proof.
  induction s as [|c s IH]; cbn [split]; [eauto|].
  destruct (c =? sep); [eauto|]. destruct IH as (seg & segs & ->). eauto.
Qed.

Lemma join_cons (sep p : list N) (q : list N) (ps : list (list N)) :
  join sep (p :: q :: ps) = p ++ sep ++ join sep (q :: ps).
Proof. reflexivity. Qed.

Lemma join_split (sep : N) (s : list N) :
  join [sep] (split sep s) = s.
Proof.
  induction s as [|c s IH]; [reflexivity|]. cbn [split].
  destruct (split_cons_form sep s) as (seg & segs & Hs). rewrite Hs in *.
  destruct (N.eqb_spec c sep) as [->|Hne].
  - rewrite join_cons, IH. reflexivity.
  - destruct segs as [|q segs].
    + cbn [join] in *. by rewrite IH.
    + rewrite join_cons in *. rewrite <- IH. reflexivity.
Qed.

Lemma split_without_sep (sep : N) (s : list N) :
  sep ∉ s -> split sep s = [s].
Proof.
  induction s as [|c s IH]; [reflexivity|]. intros Hc.
  apply not_elem_of_cons in Hc as [Hne Hs]. cbn [split].
  destruct (N.eqb_spec c sep) as [->|_]; [done|]. by rewrite (IH Hs).
Qed.

Lemma split_app_sep (sep : N) (p rest : list N) :
  sep ∉ p -> split sep (p ++ sep :: rest) = p :: split sep rest.
Proof.
  induction p as [|c p IH]; intros Hp.
  - cbn [app split]. by rewrite N.eqb_refl.
  - apply not_elem_of_cons in Hp as [Hne Hp]. cbn [app split].
    destruct (N.eqb_spec c sep) as [->|_]; [done|]. by rewrite (IH Hp).
Qed.

Lemma split_join (sep : N) (ps : list (list N)) :
  ps <> [] -> Forall (fun p => sep ∉ p) ps ->
  split sep (join [sep] ps) = ps.
Proof.
  intros Hne Hps. induction Hps as [|p ps Hp Hps IH]; [done|].
  destruct ps as [|q ps].
  - cbn [join]. by apply split_without_sep.
  - rewrite join_cons. cbn [app]. rewrite split_app_sep by exact Hp.
    rewrite IH by done. reflexivity.
Qed.

Lemma split_segments_no_sep (sep : N) (s seg : list N) :
  seg ∈ split sep s -> sep ∉ seg.
Proof.
  revert seg. induction s as [|c s IH]; intros seg; cbn [split].
  - intros ->%list_elem_of_singleton. apply not_elem_of_nil.
  - destruct (split_cons_form sep s) as (h & t & Hs). rewrite Hs in *.
    destruct (N.eqb_spec c sep) as [->|Hne].
    + intros [->|Hin]%elem_of_cons; [apply not_elem_of_nil|by apply IH].
    + intros [->|Hin]%elem_of_cons.
      * apply not_elem_of_cons. split; [congruence|].
        apply IH, list_elem_of_here.
      * apply IH, list_elem_of_further, Hin.
Qed.

Lemma lstrip_suffix (s : list N) :
  exists ws, s = ws ++ lstrip s /\ forallb isspace ws = true.
Proof.
  induction s as [|c s (ws & Hs & Hws)]; [by exists []|]. cbn [lstrip].
  destruct (isspace c) eqn:Hc.
  - exists (c :: ws). cbn [app forallb]. rewrite Hc, Hws. by rewrite <- Hs.
  - by exists [].
Qed.

Lemma lstrip_starts_clean (s : list N) : starts_clean (lstrip s) = true.
Proof.
  induction s as [|c s IH]; [reflexivity|]. cbn [lstrip].
  destruct (isspace c) eqn:Hc; [exact IH|]. cbn [starts_clean]. by rewrite Hc.
Qed.

Lemma lstrip_clean (s : list N) : starts_clean s = true -> lstrip s = s.
Proof.
  destruct s as [|c s]; [reflexivity|]. cbn [starts_clean lstrip].
  by intros ->%negb_true_iff.
Qed.

Lemma rstrip_prefix (s : list N) :
  exists ws, s = rstrip s ++ ws /\ forallb isspace ws = true.
Proof.
  unfold rstrip. destruct (lstrip_suffix (rev s)) as (ws & Hs & Hws).
  exists (rev ws). split.
  - rewrite <- rev_app_distr, <- Hs. by rewrite rev_involutive.
  - rewrite forallb_forall in *. intros x Hx. apply Hws. by apply in_rev.
Qed.

Lemma starts_clean_app (s t : list N) :
  starts_clean (s ++ t) = true -> starts_clean s = true.
Proof. destruct s; [reflexivity|exact id]. Qed.

Lemma strip_trimmed (s : list N) : trimmed (strip s) = true.
Proof.
  unfold trimmed, strip. apply andb_true_iff. split.
  - destruct (rstrip_prefix (lstrip s)) as (ws & Hs & _).
    apply (starts_clean_app _ ws). rewrite <- Hs. apply lstrip_starts_clean.
  - unfold rstrip. rewrite rev_involutive. apply lstrip_starts_clean.
Qed.

Lemma strip_fixed (s : list N) : trimmed s = true -> strip s = s.
Proof.
  unfold trimmed, strip, rstrip. intros [Hs Hr]%andb_true_iff.
  rewrite (lstrip_clean s Hs), (lstrip_clean (rev s) Hr).
  apply rev_involutive.
Qed.

Lemma strip_elements (s : list N) (x : N) : x ∈ strip s -> x ∈ s.
Proof.
  unfold strip. intros Hx.
  destruct (lstrip_suffix s) as (ws & Hs & _).
  destruct (rstrip_prefix (lstrip s)) as (ws' & Hs' & _).
  rewrite Hs, Hs'. rewrite !elem_of_app. auto.
Qed.

Lemma strip_length (s : list N) : (length (strip s) <= length s)%nat.
Proof.
  unfold strip.
  destruct (lstrip_suffix s) as (ws & Hs & _).
  destruct (rstrip_prefix (lstrip s)) as (ws' & Hs' & _).
  rewrite Hs at 2. rewrite Hs' at 2. rewrite !length_app. lia.
Qed.

(** ** More on the clause list *)

Lemma newline_isspace : isspace newline = true.
Proof. reflexivity. Qed.

Lemma clause_facts (full_text c : list N) :
  c ∈ clauses full_text ->
  Nat.lt 50 (length c)
  /\ trimmed c = true
  /\ (newline ∉ c)
  /\ exists p : list N, p ∈ split newline full_text /\ c = strip p.
Proof.
  unfold clauses. rewrite clauses_filter.
  intros (p & -> & [Hlong Hp]%list_elem_of_filter)%list_elem_of_fmap.
  split; [exact Hlong|]. split; [apply strip_trimmed|]. split; [|eauto].
  intros Hin%strip_elements.
  exact (split_segments_no_sep newline full_text p Hp Hin).
Qed.

(** X1: every clause offered is longer than 50 characters, has no
    whitespace at either end, spans no line break, and is the stripped form
    of a line of the text. *)
Theorem clauses_long_trimmed_lines (full_text c : list N) :
  c ∈ clauses full_text ->
  Nat.lt 50 (length c)
  /\ trimmed c = true
  /\ (newline ∉ c)
  /\ exists p : list N, p ∈ split newline full_text /\ c = strip p.
Proof.
  intros Hc. destruct (clause_facts full_text c Hc) as (Hl & Ht & Hn & Hp).
  auto.
Qed.

Lemma clauses_long_trimmed_lines_witness :
  Nat.lt 50 (length Demo.lease_clause)
  /\ trimmed Demo.lease_clause = true
  /\ (newline ∉ Demo.lease_clause)
  /\ exists p : list N,
       p ∈ split newline Demo.crlf_text /\ Demo.lease_clause = strip p.
Proof.
  apply clauses_long_trimmed_lines.
  apply (bool_decide_unpack _). vm_compute. exact I.
Defined.

(** X2: a clause offered is stable: taken as a text of its own, it is its
    one and only clause. *)
Theorem clauses_of_clause (full_text c : list N) :
  c ∈ clauses full_text -> clauses c = [c].
Proof.
  intros (Hlong & Htrim & Hnl & _)%clause_facts.
  unfold clauses. rewrite (split_without_sep newline c Hnl).
  cbn [flat_map app]. rewrite (strip_fixed c Htrim).
  by rewrite bool_decide_eq_true_2.
Qed.

Lemma clauses_of_clause_witness :
  clauses Demo.lease_clause = [Demo.lease_clause].
Proof.
  apply (clauses_of_clause Demo.crlf_text).
  apply (bool_decide_unpack _). vm_compute. exact I.
Defined.

(** ** Text extraction *)

Lemma split_app_sep_segments (sep : N) (s t : list N) :
  exists segs, segs <> [] /\ split sep (s ++ sep :: t) = segs ++ split sep t.
Proof.
  induction s as [|c s (segs & Hne & IH)]; cbn [app split].
  - exists [[]]. by rewrite N.eqb_refl.
  - rewrite IH. destruct segs as [|h tl]; [done|].
    destruct (c =? sep); [by exists ([] :: h :: tl)|by exists ((c :: h) :: tl)].
Qed.

(** X3: the file type is the part of the name after its last dot, in lower
    case; a name without any dot is its own file type.  The lower case is
    that of [str.lower()]: A-Z to a-z on an ASCII extension, the
    interpreter's Unicode lower-casing on any other. *)
Theorem file_type_last_extension (C : Collaborators) (stem ext : list N) :
  dot ∉ ext ->
  file_type_of C (stem ++ dot :: ext) = lower (unicode_lower C) ext
  /\ file_type_of C ext = lower (unicode_lower C) ext.
Proof.
  intros Hext. unfold file_type_of.
  destruct (split_app_sep_segments dot stem ext) as (segs & _ & ->).
  rewrite (split_without_sep dot ext Hext), last_snoc. done.
Qed.

Lemma file_type_last_extension_witness :
  (file_type_of Demo.answering (lit "Lease.v2" ++ dot :: lit "PDF")
   = lit "pdf"
   /\ file_type_of Demo.answering (lit "PDF") = lit "pdf")
  /\ (file_type_of Demo.answering (lit "a" ++ dot :: [0xC4; 0xD6])
      = [0xE4; 0xF6]
      /\ file_type_of Demo.answering [0xC4; 0xD6] = [0xE4; 0xF6]).
Proof.
  split.
  - apply (file_type_last_extension Demo.answering (lit "Lease.v2")
             (lit "PDF")).
    apply (bool_decide_unpack _). vm_compute. exact I.
  - apply (file_type_last_extension Demo.answering (lit "a") [0xC4; 0xD6]).
    apply (bool_decide_unpack _). vm_compute. exact I.
Defined.

Section Extraction.

Variable C : Collaborators.

Lemma read_pages_returns (acc : list N) (pages : list (list N)) :
  read_pages acc (Returns <$> pages) = (acc ++ concat pages, None).
Proof.
  revert acc. induction pages as [|t pages IH]; intros acc; cbn.
  - by rewrite app_nil_r.
  - rewrite IH. by rewrite <- app_assoc.
Qed.

Lemma read_pages_raises (acc : list N) (pages : list (list N)) (e : string)
    (rest : list (result (list N))) :
  read_pages acc ((Returns <$> pages) ++ Raises e :: rest)
  = (acc ++ concat pages, Some e).
Proof.
  revert acc. induction pages as [|t pages IH]; intros acc; cbn.
  - by rewrite app_nil_r.
  - rewrite IH. by rewrite <- app_assoc.
Qed.

Lemma ocr_images_returns (acc texts : list (list N)) :
  ocr_images acc (Returns <$> texts) = Returns (acc ++ texts).
Proof.
  revert acc. induction texts as [|t texts IH]; intros acc; cbn.
  - by rewrite app_nil_r.
  - rewrite IH. by rewrite <- app_assoc.
Qed.

Lemma ocr_images_raises (acc : list (list N))
    (images : list (result (list N))) (e : string) :
  Raises e ∈ images -> exists e', ocr_images acc images = Raises e'.
Proof.
  revert acc. induction images as [|[t|e0] images IH]; intros acc Hin.
  - by apply elem_of_nil in Hin.
  - apply elem_of_cons in Hin as [?|Hin]; [done|]. cbn. by apply IH.
  - cbn. eauto.
Qed.

(** X4: a PDF read without OCR whose pages all yield text: the document
    text is the page texts one after the other, with nothing between
    them. *)
Theorem pdf_text_layer_concatenates (f : UploadedFile)
    (pages : list (list N)) :
  file_type_of C (name f) = lit "pdf" ->
  fitz_open C (read f) = Returns (Returns <$> pages) ->
  process_document C f false
  = (concat pages, [Notice success "Text extracted from PDF."]).
Proof.
  intros Htype Hopen. unfold process_document.
  rewrite Htype, Hopen, read_pages_returns. reflexivity.
Qed.

(** X5: a PDF read without OCR whose page fails after some pages were
    read: the document text is the text of the pages before the failing
    one, and the failure is shown. *)
Theorem pdf_text_layer_keeps_read_pages (f : UploadedFile)
    (pages : list (list N)) (e : string) (rest : list (result (list N))) :
  file_type_of C (name f) = lit "pdf" ->
  fitz_open C (read f) = Returns ((Returns <$> pages) ++ Raises e :: rest) ->
  process_document C f false = (concat pages, pdf_failed e).
Proof.
  intros Htype Hopen. unfold process_document.
  rewrite Htype, Hopen, read_pages_raises. reflexivity.
Qed.

(** X6: a PDF read with OCR is all or nothing: when every page image is
    recognised the text is the page texts joined by newlines, and when one
    of them fails the text is empty, whatever the other pages gave. *)
Theorem pdf_ocr_all_or_nothing (f : UploadedFile)
    (images : list (result (list N))) :
  file_type_of C (name f) = lit "pdf" ->
  convert_from_bytes C (read f) = Returns images ->
  (forall texts : list (list N), images = Returns <$> texts ->
     process_document C f true
     = (join [newline] texts, [Notice success "OCR completed successfully!"]))
  /\ (forall e : string, Raises e ∈ images ->
        (process_document C f true).1 = []).
Proof.
  intros Htype Hconv. unfold process_document. rewrite Htype, Hconv.
  cbn [bool_decide decide_rel]. split.
  - intros texts ->. rewrite bool_decide_eq_true_2 by reflexivity.
    by rewrite ocr_images_returns.
  - intros e Hin. rewrite bool_decide_eq_true_2 by reflexivity.
    destruct (ocr_images_raises [] images e Hin) as [e' ->]. reflexivity.
Qed.

(** X7: a TXT upload that holds the UTF-8 encoding of a text yields exactly
    that text. *)
Theorem txt_upload_roundtrip (f : UploadedFile) (text : list N) (ocr : bool) :
  file_type_of C (name f) = lit "txt" ->
  encode text = Some (read f) ->
  process_document C f ocr
  = (text, [Notice success "Text extracted from TXT."]).
Proof.
  intros Htype Henc. unfold process_document. rewrite Htype.
  rewrite (decode_encode text (read f) Henc). reflexivity.
Qed.

(** X8: a DOCX whose paragraphs hold no line break: the clauses offered
    are the stripped paragraphs of more than 50 characters, in order. *)
Theorem docx_clauses_are_paragraphs (f : UploadedFile) (ocr : bool)
    (paragraphs : list (list N)) :
  file_type_of C (name f) = lit "docx" ->
  docx_Document C (read f) = Returns paragraphs ->
  Forall (fun p => newline ∉ p) paragraphs ->
  clauses (process_document C f ocr).1
  = strip <$> filter (fun p => Nat.lt 50 (length (strip p))) paragraphs.
Proof.
  intros Htype Hdoc Hlines.
  assert (Hrun : process_document C f ocr
                 = (join [newline] paragraphs,
                    [Notice success "Text extracted from DOCX."])).
  { unfold process_document. rewrite Htype, Hdoc. reflexivity. }
  rewrite Hrun. cbn [fst]. unfold clauses. rewrite clauses_filter.
  destruct paragraphs as [|p ps]; [reflexivity|].
  by rewrite split_join.
Qed.

End Extraction.

(** ** UTF-8: what decodes is canonical *)

Lemma decode_step (n : nat) :
  forall b s : list N,
    (length b <= n)%nat -> decode b = Some s ->
    encode s = Some b /\ forallb is_scalar s = true.
Proof.
  induction n as [|n IH]; intros b s Hlen.
  { destruct b; [|cbn in Hlen; lia]. intros [= <-]. done. }
  destruct b as [|b0 t0]; [intros [= <-]; done|].
  rewrite decode_cons. cbn [length] in Hlen.
  destruct (N.ltb_spec b0 0x80).
  { destruct (decode t0) as [s'|] eqn:Ht0; [|discriminate]. intros [= <-].
    destruct (IH t0 s' ltac:(lia) Ht0) as [Henc Hsc].
    cbn [encode forallb]. rewrite Henc, Hsc.
    unfold encode_char, is_scalar, is_surrogate. bool_arith. done. }
  destruct (N.ltb_spec b0 0xC0); [discriminate|].
  destruct (N.ltb_spec b0 0xE0).
  { destruct t0 as [|b1 t1]; [discriminate|]. cbv zeta. unfold is_cont.
    destruct (N.leb_spec 0x80 b1); [|discriminate].
    destruct (N.ltb_spec b1 0xC0); [|discriminate].
    destruct (N.leb_spec 0x80 ((b0 - 0xC0) * 64 + (b1 - 0x80)));
      [|discriminate]. cbn [andb].
    destruct (decode t1) as [s'|] eqn:Ht1; [|discriminate]. intros [= <-].
    cbn [length] in Hlen.
    destruct (IH t1 s' ltac:(lia) Ht1) as [Henc Hsc].
    cbn [encode forallb]. rewrite Henc, Hsc.
    set (c := (b0 - 0xC0) * 64 + (b1 - 0x80)) in *.
    assert (Hc : c < 0x800) by (subst c; arith).
    unfold encode_char, is_scalar, is_surrogate.
    destruct (N.ltb_spec c 0x80); [arith|].
    destruct (N.ltb_spec c 0x800); [|arith].
    replace (0xC0 + c / 64) with b0 by (subst c; arith).
    replace (0x80 + c mod 64) with b1 by (subst c; arith).
    bool_arith; done. }
  destruct (N.ltb_spec b0 0xF0).
  { destruct t0 as [|b1 [|b2 t2]]; try discriminate. cbv zeta.
    unfold is_cont, is_surrogate.
    destruct (N.leb_spec 0x80 b1); [|discriminate].
    destruct (N.ltb_spec b1 0xC0); [|discriminate].
    destruct (N.leb_spec 0x80 b2); [|discriminate].
    destruct (N.ltb_spec b2 0xC0); [|discriminate].
    set (c := (b0 - 0xE0) * 4096 + (b1 - 0x80) * 64 + (b2 - 0x80)) in *.
    destruct (N.leb_spec 0x800 c); [|discriminate].
    cbn [andb].
    destruct ((0xD800 <=? c) && (c <=? 0xDFFF)) eqn:Hsur; [discriminate|].
    cbn [negb].
    destruct (decode t2) as [s'|] eqn:Ht2; [|discriminate]. intros [= <-].
    cbn [length] in Hlen.
    destruct (IH t2 s' ltac:(lia) Ht2) as [Henc Hsc].
    cbn [encode forallb]. rewrite Henc, Hsc.
    assert (Hc : c < 0x10000) by (subst c; arith).
    unfold encode_char, is_scalar, is_surrogate. rewrite Hsur.
    destruct (N.ltb_spec c 0x80); [arith|].
    destruct (N.ltb_spec c 0x800); [arith|].
    destruct (N.ltb_spec c 0x10000); [|arith].
    destruct (N.ltb_spec c 0x110000); [|arith].
    replace (0xE0 + c / 4096) with b0 by (subst c; arith).
    replace (0x80 + (c / 64) mod 64) with b1 by (subst c; arith).
    replace (0x80 + c mod 64) with b2 by (subst c; arith).
    done. }
  destruct (N.ltb_spec b0 0xF8); [|discriminate].
  destruct t0 as [|b1 [|b2 [|b3 t3]]]; try discriminate. cbv zeta.
  unfold is_cont.
  destruct (N.leb_spec 0x80 b1); [|discriminate].
  destruct (N.ltb_spec b1 0xC0); [|discriminate].
  destruct (N.leb_spec 0x80 b2); [|discriminate].
  destruct (N.ltb_spec b2 0xC0); [|discriminate].
  destruct (N.leb_spec 0x80 b3); [|discriminate].
  destruct (N.ltb_spec b3 0xC0); [|discriminate].
  set (c := (b0 - 0xF0) * 262144 + (b1 - 0x80) * 4096
            + (b2 - 0x80) * 64 + (b3 - 0x80)) in *.
  destruct (N.leb_spec 0x10000 c); [|discriminate].
  destruct (N.ltb_spec c 0x110000); [|discriminate].
  cbn [andb].
  destruct (decode t3) as [s'|] eqn:Ht3; [|discriminate]. intros [= <-].
  cbn [length] in Hlen.
  destruct (IH t3 s' ltac:(lia) Ht3) as [Henc Hsc].
  cbn [encode forallb]. rewrite Henc, Hsc.
  unfold encode_char, is_scalar, is_surrogate.
  destruct (N.ltb_spec c 0x80); [arith|].
  destruct (N.ltb_spec c 0x800); [arith|].
  destruct (N.ltb_spec c 0x10000); [arith|].
  destruct (N.ltb_spec c 0x110000); [|arith].
  replace (0xF0 + c / 262144) with b0 by (subst c; arith).
  replace (0x80 + (c / 4096) mod 64) with b1 by (subst c; arith).
  replace (0x80 + (c / 64) mod 64) with b2 by (subst c; arith).
  replace (0x80 + c mod 64) with b3 by (subst c; arith).
  bool_arith; done.
Qed.

(** X9: a TXT upload that is accepted: the text extracted is made of
    Unicode scalar values and encodes back to exactly the uploaded bytes
    (no overlong or surrogate form is let through). *)
Theorem txt_upload_canonical (C : Collaborators) (f : UploadedFile)
    (ocr : bool) (text : list N) :
  file_type_of C (name f) = lit "txt" ->
  decode (read f) = Some text ->
  (process_document C f ocr).1 = text
  /\ encode text = Some (read f)
  /\ forallb is_scalar text = true.
Proof.
  intros Htype Hdec. split.
  - unfold process_document. rewrite Htype, Hdec. reflexivity.
  - exact (decode_step (length (read f)) (read f) text (le_n _) Hdec).
Qed.

(** ** The requests of a feature block *)

Lemma no_calls_calls_of (t : list event) : no_calls t -> calls_of t = [].
Proof.
  induction t as [|[l msg|r] t IH]; intros Ht; [reflexivity| |].
  - cbn. apply IH. intros r Hr. apply (Ht r), list_elem_of_further, Hr.
  - destruct (Ht r). apply list_elem_of_here.
Qed.

Lemma join_elem (sep x : list N) (ls : list (list N)) :
  x ∈ ls -> exists pre post, join sep ls = pre ++ x ++ post.
Proof.
  induction ls as [|l ls IH]; [by intros ?%elem_of_nil|].
  intros [->|Hin]%elem_of_cons.
  - destruct ls as [|l' ls]; [exists [], []; by rewrite app_nil_r|].
    exists [], (sep ++ join sep (l' :: ls)). reflexivity.
  - destruct (IH Hin) as (pre & post & Heq).
    destruct ls as [|l' ls]; [by apply elem_of_nil in Hin|].
    exists (l ++ sep ++ pre), post. rewrite join_cons, Heq.
    by rewrite <- !app_assoc.
Qed.

Lemma index_lookup (x : list N) (l : list (list N)) :
  x ∈ l -> l !! index x l = Some x.
Proof.
  induction l as [|y l IH]; [by intros ?%elem_of_nil|].
  intros Hin. cbn [index]. case_bool_decide as Hy; [by subst|].
  apply elem_of_cons in Hin as [->|Hin]; [done|]. by apply IH.
Qed.

Section Requests.

Variable C : Collaborators.
Variable catalog : feature -> descriptor.

Lemma ask_calls (slot : string) (persona prompt : list N) (temp tokens : N)
    (done_msg unexpected : string) (st : gmap string value) :
  calls_of (trace_of (ask C slot persona prompt temp tokens done_msg
                        unexpected st))
  = [ {| model := "gpt-4o"; system_content := persona;
         user_content := prompt; temperature := temp;
         max_tokens := tokens |} ].
Proof.
  unfold ask, bind, emit, setattr, st_success, st_error, st_info, emit, raise.
  by destruct (chat_completions_create C _) as [[?|]|[?|] [?|]|?].
Qed.

Lemma ask_completion (slot : string) (persona prompt : list N)
    (temp tokens : N) (done_msg unexpected : string)
    (st : gmap string value) (content : list N) :
  chat_completions_create C
    {| model := "gpt-4o"; system_content := persona;
       user_content := prompt; temperature := temp; max_tokens := tokens |}
  = Completion (Some content) ->
  ask C slot persona prompt temp tokens done_msg unexpected st
  = (Normal tt, <[slot := VStr (strip content)]> st,
     [ EngineCall {| model := "gpt-4o"; system_content := persona;
                     user_content := prompt; temperature := temp;
                     max_tokens := tokens |};
       Notice success done_msg ]).
Proof. intros Hc. unfold ask. rewrite Hc. reflexivity. Qed.

Lemma elem_of_calls_of (t : list event) (r : request) :
  EngineCall r ∈ t <-> r ∈ calls_of t.
Proof.
  unfold calls_of. rewrite list_elem_of_omap. split.
  - intros Hin. by exists (EngineCall r).
  - by intros ([l msg|r'] & Hin & [= <-]).
Qed.

(** What a RunFeature of a feature of the source comes to: nothing, or
    the shared call block, on the store that the input widgets left, on a
    prompt built from the persona and the text or the chosen clause. *)
Lemma RunFeature_source (persona : list N) (f : feature)
    (st : gmap string value) :
  f ∈ source_features ->
  RunFeature C catalog persona f st = (Normal tt, st, [])
  \/ (exists msg, RunFeature C catalog persona f st
                  = (Normal tt, st, [Notice warning msg]))
  \/ exists (prompt : list N) (temp tokens : N) (done_msg unexpected : string),
       RunFeature C catalog persona f st
       = ask C (result_key f) persona prompt temp tokens done_msg
           unexpected
           (after_select_box f (as_str (default VNone (st !! "full_text")))
              st)
       /\ (exists rest, prompt = newline :: persona ++ newline :: rest)
       /\ (f <> clause_explanation ->
           exists pre post,
             prompt = pre ++ as_str (default VNone (st !! "full_text"))
                          ++ post)
       /\ (f = clause_explanation ->
           exists c,
             c ∈ clauses (as_str (default VNone (st !! "full_text")))
             /\ prompt = clause_prompt persona c
             /\ forall sel,
                  st !! "clause_select_tab" = Some (VStr sel) ->
                  sel ∈ clauses (as_str (default VNone (st !! "full_text")))
                  -> c = sel).
Proof.
  intros Hf. unfold RunFeature. rewrite bind_getattr.
  destruct (truthy _); [|by left].
  set (full_text := as_str (default VNone (st !! "full_text"))).
  assert (Hdoc : forall lines : list (list N),
            full_text ∈ lines ->
            exists pre post, unlines lines = pre ++ full_text ++ post)
    by (intros lines; apply join_elem).
  destruct f; cbn [block];
    try (exfalso; revert Hf; unfold source_features;
         rewrite !elem_of_cons, elem_of_nil; intuition discriminate).
  all: unfold summary_block, takeaways_block, tab_entities, tab_obligations,
         tab_glossary, tab_outline, risk_block, tab_qa, tab_clause;
       rewrite ?bind_getattr; cbn [click button custom_ai_instruction];
       rewrite ?(bool_decide_eq_true_2 (_ = _) eq_refl); cbn [andb].
  3: destruct (nonempty _); [|by left].
  4: { case_bool_decide as Hcl; cbn [negb]; [|right; left; eauto].
       rewrite bind_getattr, bind_setattr.
       cbn [click button custom_ai_instruction].
       rewrite ?(bool_decide_eq_true_2 (clause_explanation = _) eq_refl).
       right; right. do 5 eexists.
       split; [by rewrite (after_select_box_clause full_text st Hcl)|].
       split; [eexists; reflexivity|]. split; [done|]. intros _.
       set (sel := default VNone (st !! "clause_select_tab")).
       destruct (value_in sel (clauses full_text)) eqn:Hsel.
       - destruct sel as [|s] eqn:Hs; [discriminate|].
         cbn [value_in] in Hsel. apply bool_decide_eq_true_1 in Hsel.
         cbn [as_str]. rewrite (index_lookup s _ Hsel). cbn [default].
         exists s. split; [exact Hsel|]. split; [reflexivity|].
         intros sel' Hst _. subst sel. rewrite Hst in Hs. by injection Hs.
       - destruct (clauses full_text) as [|c0 cs] eqn:Hcs; [done|].
         exists c0. cbn [lookup list_lookup default].
         split; [apply list_elem_of_here|]. split; [reflexivity|].
         intros sel' Hst Hin. subst sel. rewrite Hst in Hsel.
         unfold default, value_in in Hsel.
         apply bool_decide_eq_false_1 in Hsel. contradiction. }
  all: right; right; do 5 eexists; (split; [reflexivity|]);
       (split; [eexists; reflexivity|]); (split; [|done]); intros _;
       apply Hdoc;
       repeat first [apply list_elem_of_here | apply list_elem_of_further].
Qed.

End Requests.

Section RequestFacts.

Variable C : Collaborators.
Variable catalog : feature -> descriptor.

(** The one request of a RunFeature that called, for a feature of the
    source. *)
Lemma RunFeature_source_call (persona : list N) (f : feature)
    (st : gmap string value) (r : request) :
  f ∈ source_features ->
  EngineCall r ∈ trace_of (RunFeature C catalog persona f st) ->
  exists (temp tokens : N) (done_msg unexpected : string),
    RunFeature C catalog persona f st
    = ask C (result_key f) persona (user_content r) temp tokens done_msg
        unexpected
        (after_select_box f (as_str (default VNone (st !! "full_text"))) st)
    /\ r = {| model := "gpt-4o"; system_content := persona;
              user_content := user_content r; temperature := temp;
              max_tokens := tokens |}.
Proof.
  intros Hf Hin.
  destruct (RunFeature_source C catalog persona f st Hf)
    as [Hrun|[[msg Hrun]|(prompt & temp & tokens & d & u & Hrun & _)]].
  - rewrite Hrun in Hin. by apply elem_of_nil in Hin.
  - rewrite Hrun in Hin. cbn in Hin.
    apply elem_of_cons in Hin as [?|Hin]; [done|].
    by apply elem_of_nil in Hin.
  - rewrite Hrun in Hin. apply elem_of_calls_of in Hin.
    rewrite ask_calls in Hin. apply list_elem_of_singleton in Hin.
    subst r. cbn [user_content]. by exists temp, tokens, d, u.
Qed.

(** X10: when the model answers, the answer is stored stripped of the
    whitespace around it, under the result key of the feature.  The display
    that follows the block lets the run go on exactly when the stored
    answer is empty or both of its exports succeed: an answer on which
    [create_pdf] raises ends the run at the display. *)
Theorem RunFeature_answer_stored_stripped (persona : list N) (f : feature)
    (st : gmap string value) (r : request) (content : list N) :
  f ∈ source_features ->
  EngineCall r ∈ trace_of (RunFeature C catalog persona f st) ->
  chat_completions_create C r = Completion (Some content) ->
  state_of (RunFeature C catalog persona f st) !! result_key f
  = Some (VStr (strip content))
  /\ trimmed (strip content) = true
  /\ (ending_of (show C catalog f
                   (state_of (RunFeature C catalog persona f st)))
      = Normal tt
      <-> strip content = []
          \/ ((exists txt : list N, encode (strip content) = Some txt)
              /\ (exists pdf : list N,
                    create_pdf C (strip content) (pdf_title catalog f)
                    = Returns pdf))).
Proof.
  intros Hf Hin Hc.
  destruct (RunFeature_source_call persona f st r Hf Hin)
    as (temp & tokens & d & u & Hrun & Hr).
  rewrite Hr in Hc. rewrite Hrun, (ask_completion C _ _ _ _ _ _ _ _ _ Hc).
  unfold state_of at 1 2. cbn [fst snd].
  split; [apply lookup_insert_eq|]. split; [apply strip_trimmed|].
  rewrite show_closed, lookup_insert_eq. cbv zeta.
  unfold ending_of. cbn [fst snd].
  change (default VNone (Some (VStr (strip content))))
    with (VStr (strip content)).
  cbn [truthy as_str].
  destruct (strip content) as [|c rest]; cbn [nonempty]; [by split; [left|]|].
  destruct (encode (c :: rest)) as [txt|].
  - destruct (create_pdf C (c :: rest) (pdf_title catalog f)) as [pdf|e].
    + split; [|done]. intros _. right. eauto.
    + split; [done|]. by intros [?|[_ [pdf ?]]].
  - split; [done|]. by intros [?|[[txt ?] _]].
Qed.

(** X11: every request is for the model gpt-4o and carries the persona
    twice: as the system message and as the first line of the prompt. *)
Theorem RunFeature_request_persona (persona : list N) (f : feature)
    (st : gmap string value) (r : request) :
  f ∈ source_features ->
  EngineCall r ∈ trace_of (RunFeature C catalog persona f st) ->
  model r = "gpt-4o"
  /\ system_content r = persona
  /\ exists rest : list N,
       user_content r = newline :: persona ++ newline :: rest.
Proof.
  intros Hf Hin.
  destruct (RunFeature_source C catalog persona f st Hf)
    as [Hrun|[[msg Hrun]|(prompt & temp & tokens & d & u & Hrun & Hhead & _)]].
  - rewrite Hrun in Hin. by apply elem_of_nil in Hin.
  - rewrite Hrun in Hin. cbn in Hin.
    apply elem_of_cons in Hin as [?|Hin]; [done|].
    by apply elem_of_nil in Hin.
  - rewrite Hrun in Hin. apply elem_of_calls_of in Hin.
    rewrite ask_calls in Hin. apply list_elem_of_singleton in Hin.
    subst r. done.
Qed.

(** X12: every request of a feature other than the clause explanation
    carries the whole document text, uncut, inside its prompt. *)
Theorem RunFeature_request_whole_document (persona : list N) (f : feature)
    (st : gmap string value) (r : request) (full_text : list N) :
  f ∈ source_features ->
  f <> clause_explanation ->
  st !! "full_text" = Some (VStr full_text) ->
  EngineCall r ∈ trace_of (RunFeature C catalog persona f st) ->
  exists pre post : list N, user_content r = pre ++ full_text ++ post.
Proof.
  intros Hf Hne Hst Hin.
  destruct (RunFeature_source C catalog persona f st Hf)
    as [Hrun|[[msg Hrun]|(prompt & temp & tokens & d & u & Hrun & _ & Hdoc & _)]].
  - rewrite Hrun in Hin. by apply elem_of_nil in Hin.
  - rewrite Hrun in Hin. cbn in Hin.
    apply elem_of_cons in Hin as [?|Hin]; [done|].
    by apply elem_of_nil in Hin.
  - rewrite Hrun in Hin. apply elem_of_calls_of in Hin.
    rewrite ask_calls in Hin. apply list_elem_of_singleton in Hin.
    subst r. cbn [user_content]. rewrite Hst in Hdoc. by apply Hdoc.
Qed.


(** X14: a RunFeature calls the model at most once, whatever the feature
    and however the call ends. *)
Theorem RunFeature_at_most_one_call (persona : list N) (f : feature)
    (st : gmap string value) :
  (length (calls_of (trace_of (RunFeature C catalog persona f st))) <= 1)%nat.
Proof.
  destruct (RunFeature_outcome C catalog persona f st)
    as [t Ht|req content t Ht _|req e _]; unfold trace_of; cbn [snd].
  - rewrite (no_calls_calls_of t Ht). cbn. lia.
  - change (calls_of (EngineCall req :: t)) with (req :: calls_of t).
    rewrite (no_calls_calls_of t Ht). cbn. lia.
  - cbn. lia.
Qed.

End RequestFacts.

(** A model that marks its answer up and forgets to close the tag: the
    answer is stored, and the display of the answer ends the run. *)
Lemma RunFeature_answer_stored_stripped_witness :
  let r := RunFeature Sample.marking Demo.catalog Demo.persona qa_answer
             Demo.answered in
  ending_of r = Normal tt
  /\ ending_of (show Sample.marking Demo.catalog qa_answer (state_of r))
     = Uncaught "ValueError: paragraph text has an unclosed tag"
  /\ state_of r !! result_key qa_answer = Some (VStr (lit "<b>bold"))
  /\ trimmed (strip (lit " <b>bold ")) = true
  /\ (ending_of (show Sample.marking Demo.catalog qa_answer (state_of r))
      = Normal tt
      <-> strip (lit " <b>bold ") = []
          \/ ((exists txt : list N,
                 encode (strip (lit " <b>bold ")) = Some txt)
              /\ (exists pdf : list N,
                    create_pdf Sample.marking (strip (lit " <b>bold "))
                      (pdf_title Demo.catalog qa_answer)
                    = Returns pdf))).
Proof.
  intros r. split; [vm_compute; reflexivity|].
  split; [vm_compute; reflexivity|].
  refine (RunFeature_answer_stored_stripped Sample.marking Demo.catalog
            Demo.persona qa_answer Demo.answered Demo.question
            (lit " <b>bold ") _ _ _).
  - apply (bool_decide_unpack _). vm_compute. exact I.
  - vm_compute. apply list_elem_of_here.
  - reflexivity.
Defined.

Lemma RunFeature_request_persona_witness :
  model Demo.question = "gpt-4o"
  /\ system_content Demo.question = Demo.persona
  /\ exists rest : list N,
       user_content Demo.question
       = newline :: Demo.persona ++ newline :: rest.
Proof.
  apply (RunFeature_request_persona Demo.answering Demo.catalog
           Demo.persona qa_answer Demo.answered Demo.question).
  - apply (bool_decide_unpack _). vm_compute. exact I.
  - vm_compute. apply list_elem_of_here.
Defined.

Lemma RunFeature_request_whole_document_witness :
  exists pre post : list N,
    user_content Sample.summary_request = pre ++ Demo.lease_clause ++ post.
Proof.
  apply (RunFeature_request_whole_document Demo.answering Demo.catalog
           Demo.persona executive_summary Demo.loaded).
  - apply (bool_decide_unpack _). vm_compute. exact I.
  - discriminate.
  - vm_compute. reflexivity.
  - vm_compute. apply list_elem_of_here.
Defined.


(** ** Whole runs and sessions *)

Section Sessions.

Variable C : Collaborators.
Variable catalog : feature -> descriptor.

Lemma process_document_no_call (f : UploadedFile) (ocr : bool) :
  calls_of (process_document C f ocr).2 = [].
Proof.
  unfold process_document. repeat case_bool_decide; repeat case_match;
    reflexivity.
Qed.

Lemma upload_handler_no_call (file : option UploadedFile) (ocr : bool)
    (st : gmap string value) :
  calls_of (trace_of (upload_handler C file ocr st)) = [].
Proof.
  destruct file as [f|]; [|by rewrite upload_handler_no_file].
  change (upload_handler C (Some f) ocr st) with (LoadDocument C f ocr st).
  destruct (decide (st !! "uploaded_file_name" = Some (VStr (name f))))
    as [Hsame|Hnew].
  - by rewrite (LoadDocument_same C f ocr st Hsame).
  - rewrite (LoadDocument_new C f ocr st Hnew).
    apply process_document_no_call.
Qed.

Lemma block_calls (w : Widgets) (full_text : list N) (f : feature)
    (st : gmap string value) :
  (length (calls_of (trace_of (block C catalog w full_text f st)))
   <= if button w f then 1 else 0)%nat.
Proof.
  destruct (button w f) eqn:Hb.
  - destruct (block_outcome_holds C catalog w full_text f st)
      as [t Ht|req content t Ht _|req e _]; unfold trace_of; cbn [snd].
    + rewrite (no_calls_calls_of t Ht). cbn. lia.
    + change (calls_of (EngineCall req :: t)) with (req :: calls_of t).
      rewrite (no_calls_calls_of t Ht). cbn. lia.
    + cbn. lia.
  - destruct (block_unclicked C catalog w full_text f st Hb)
      as (t & -> & Ht).
    unfold trace_of. cbn [snd]. by rewrite (no_calls_calls_of t Ht).
Qed.

Lemma run_blocks_calls (w : Widgets) (full_text : list N)
    (fs : list feature) (st : gmap string value) :
  (length (calls_of (trace_of (run_blocks C catalog w full_text fs st)))
   <= length (filter (fun f => button w f = true) fs))%nat.
Proof.
  revert st. induction fs as [|f fs IH]; intros st; [cbn; lia|].
  cbn [run_blocks]. rewrite trace_of_bind, calls_of_app, length_app.
  rewrite filter_cons.
  pose proof (block_calls w full_text f st) as Hf.
  assert (Hrest :
    (length (calls_of
       match ending_of (block C catalog w full_text f st) with
       | Normal _ =>
           trace_of
             ((do _ <- show C catalog f ;
               run_blocks C catalog w full_text fs)
                (state_of (block C catalog w full_text f st)))
       | Uncaught _ => []
       end)
     <= length (filter (fun f => button w f = true) fs))%nat).
  { destruct (ending_of _); [|cbn; lia].
    rewrite bind_show. destruct (ending_of _); [apply IH|cbn; lia]. }
  destruct (button w f); case_decide; try done; cbn [length]; lia.
Qed.

(** X15: a run of the script calls the model at most once per clicked
    feature button; with no button clicked it calls nothing, whatever is
    uploaded or cleared. *)
Theorem script_calls_bounded_by_clicks (w : Widgets)
    (st : gmap string value) :
  (length (calls_of (trace_of (script C catalog w st)))
   <= length (filter (fun f => button w f = true) script_order))%nat.
Proof.
  unfold script.
  rewrite (bind_silent _ _ tt _ _ (init_session_state_run st)).
  rewrite trace_of_bind, calls_of_app, upload_handler_no_call.
  rewrite upload_handler_normal. cbn [app].
  rewrite bind_getattr. destruct (clear_doc_button w).
  - rewrite (bind_silent _ _ tt _ _ (clear_handler_run _)). cbn. lia.
  - destruct (truthy _); [|cbn; lia].
    rewrite trace_of_bind, calls_of_app, length_app.
    pose proof (run_blocks_calls w
      (as_str (default VNone
         (state_of (upload_handler C (uploaded_file w) (use_ocr w)
                      (state_of (init_session_state st))) !! "full_text")))
      script_order
      (state_of (upload_handler C (uploaded_file w) (use_ocr w)
                   (state_of (init_session_state st))))) as Hb.
    assert (Hret : forall (e : ending unit) (s : gmap string value),
              length (calls_of
                        match e with
                        | Normal _ => trace_of (ret false s)
                        | Uncaught _ => []
                        end) = 0%nat) by (by intros [[]|?] ?).
    rewrite Hret. lia.
Qed.

(** *** No result without a document *)

Lemma setdefault_truthy (k : string) (v : value) (k' : string)
    (st : gmap string value) :
  truthy v = false ->
  truthy (default VNone (state_of (setdefault k v st) !! k'))
  = truthy (default VNone (st !! k')).
Proof.
  intros Hv. unfold setdefault, state_of.
  destruct (st !! k) as [x|] eqn:Hk; cbn [fst snd]; [reflexivity|].
  destruct (decide (k = k')) as [<-|Hne].
  - rewrite lookup_insert_eq, Hk. exact Hv.
  - by rewrite lookup_insert_ne.
Qed.

Lemma init_session_state_truthy (k' : string) (st : gmap string value) :
  truthy (default VNone (state_of (init_session_state st) !! k'))
  = truthy (default VNone (st !! k')).
Proof.
  unfold init_session_state.
  rewrite !state_of_bind_setdefault.
  by rewrite !setdefault_truthy.
Qed.

Lemma no_orphan_result_init (st : gmap string value) :
  no_orphan_result (state_of (init_session_state st)) = no_orphan_result st.
Proof.
  unfold no_orphan_result, all_features. cbn [forallb].
  by rewrite !init_session_state_truthy.
Qed.

Lemma no_orphan_result_cleared (st : gmap string value) :
  no_orphan_result (state_of (clear_results_and_inputs st)) = true.
Proof.
  unfold no_orphan_result. apply orb_true_intro. right.
  apply forallb_forall. intros f _. by rewrite cleared_result.
Qed.

Lemma no_orphan_result_upload (file : option UploadedFile) (ocr : bool)
    (st : gmap string value) :
  no_orphan_result st = true ->
  no_orphan_result (state_of (upload_handler C file ocr st)) = true.
Proof.
  intros Hst. destruct file as [f|]; [|by rewrite upload_handler_no_file].
  change (upload_handler C (Some f) ocr st) with (LoadDocument C f ocr st).
  destruct (decide (st !! "uploaded_file_name" = Some (VStr (name f))))
    as [Hsame|Hnew].
  - by rewrite (LoadDocument_same C f ocr st Hsame).
  - rewrite (LoadDocument_new C f ocr st Hnew).
    apply no_orphan_result_cleared.
Qed.

Lemma run_blocks_full_text (w : Widgets) (full_text : list N)
    (fs : list feature) (st : gmap string value) :
  state_of (run_blocks C catalog w full_text fs st) !! "full_text"
  = st !! "full_text".
Proof.
  revert st. induction fs as [|f fs IH]; intros st; [reflexivity|].
  cbn [run_blocks]. rewrite state_of_bind.
  assert (Hf : state_of (block C catalog w full_text f st) !! "full_text"
               = st !! "full_text").
  { pose proof (after_select_box_lookup f full_text st "full_text") as Hsel.
    destruct (block_outcome_holds C catalog w full_text f st);
      unfold state_of; cbn [fst snd]; try (by apply Hsel).
    rewrite lookup_insert_ne by (by destruct f). by apply Hsel. }
  destruct (ending_of _); [|exact Hf].
  rewrite bind_show. destruct (ending_of _); [by rewrite IH|exact Hf].
Qed.

Lemma no_orphan_result_script (w : Widgets) (st : gmap string value) :
  no_orphan_result st = true ->
  no_orphan_result (state_of (script C catalog w st)) = true.
Proof.
  intros Hst. unfold script.
  rewrite (bind_silent _ _ tt _ _ (init_session_state_run st)).
  rewrite state_of_bind, upload_handler_normal.
  pose proof (no_orphan_result_upload (uploaded_file w) (use_ocr w)
                (state_of (init_session_state st))) as Hup.
  rewrite no_orphan_result_init in Hup. specialize (Hup Hst).
  revert Hup.
  generalize (state_of (upload_handler C (uploaded_file w) (use_ocr w)
                          (state_of (init_session_state st)))).
  intros st1 Hst1. rewrite bind_getattr. destruct (clear_doc_button w).
  - rewrite state_of_bind_ret. unfold clear_handler.
    rewrite !state_of_bind. cbn [ending_of setattr fst snd].
    apply no_orphan_result_cleared.
  - destruct (truthy (default VNone (st1 !! "full_text"))) eqn:Hdoc;
      [|exact Hst1].
    rewrite state_of_bind_ret. unfold no_orphan_result.
    rewrite run_blocks_full_text, Hdoc. reflexivity.
Qed.

End Sessions.

Lemma no_orphan_result_set_input (st : gmap string value)
    (input : string * list N) :
  no_orphan_result (set_input st input) = no_orphan_result st.
Proof.
  unfold set_input. case_bool_decide as Hk; [|reflexivity].
  unfold input_keys in Hk. rewrite !elem_of_cons, elem_of_nil in Hk.
  unfold no_orphan_result, all_features. cbn [forallb result_key].
  destruct Hk as [->|[->|[->|[]]]]; by rewrite !lookup_insert_ne.
Qed.

Lemma no_orphan_result_typed (inputs : list (string * list N))
    (st : gmap string value) :
  no_orphan_result (foldl set_input st inputs) = no_orphan_result st.
Proof.
  revert st. induction inputs as [|input inputs IH]; intros st; [done|].
  cbn [foldl]. by rewrite IH, no_orphan_result_set_input.
Qed.

(** X16: in a session no result outlives the document: from a store that
    holds no result without a text, no sequence of runs, whatever is typed,
    picked, uploaded or clicked for each run and whatever the libraries and
    the model do in each run, reaches a store that holds a result while
    the document text is empty. *)
Theorem session_no_orphan_result (catalog : feature -> descriptor)
    (runs : list run) (st : gmap string value) :
  no_orphan_result st = true ->
  no_orphan_result (session catalog runs st) = true.
Proof.
  revert st. induction runs as [|r runs IH]; intros st Hst; [exact Hst|].
  cbn [session]. apply IH, no_orphan_result_script.
  by rewrite no_orphan_result_typed.
Qed.

(** A session in which results come and go: the document is loaded, a
    question is answered, the rate limit clears the answer, a summary is
    made, and the clear button empties the store. *)
Lemma session_no_orphan_result_witness :
  no_orphan_result Sample.orphaned = false
  /\ session Demo.catalog (take 2 Sample.visit) ∅ !! "qa_answer_result"
     = Some (VStr (lit "The rent is due monthly."))
  /\ session Demo.catalog (take 3 Sample.visit) ∅ !! "qa_answer_result"
     = Some (VStr [])
  /\ session Demo.catalog (take 4 Sample.visit) ∅ !! "summary_result"
     = Some (VStr (lit "The rent is due monthly."))
  /\ session Demo.catalog Sample.visit ∅ !! "summary_result"
     = Some (VStr [])
  /\ session Demo.catalog Sample.visit ∅ !! "full_text" = Some (VStr [])
  /\ no_orphan_result (session Demo.catalog (take 4 Sample.visit) ∅) = true
  /\ no_orphan_result (session Demo.catalog Sample.visit ∅) = true.
Proof.
  split; [vm_compute; reflexivity|].
  do 5 (split; [vm_compute; reflexivity|]).
  split; apply session_no_orphan_result; vm_compute; reflexivity.
Defined.

(** ** The select box and the display in a run *)

Lemma selection_offered (full_text : list N) (st : gmap string value)
    (c : list N) :
  c ∈ clauses full_text ->
  st !! "clause_select_tab" = Some (VStr c) ->
  selection full_text st = c.
Proof.
  intros Hin Hst. unfold selection. rewrite Hst.
  cbn [from_option id value_in as_str].
  rewrite bool_decide_eq_true_2 by exact Hin.
  by rewrite (index_lookup c _ Hin).
Qed.

Lemma selection_first (full_text : list N) (st : gmap string value)
    (c : list N) (cs : list (list N)) :
  clauses full_text = c :: cs ->
  st !! "clause_select_tab" = Some (VStr []) ->
  selection full_text st = c.
Proof.
  intros Hcl Hst. unfold selection. rewrite Hst.
  cbn [from_option id value_in as_str].
  rewrite bool_decide_eq_false_2; [by rewrite Hcl|].
  intros Hin. destruct (clause_facts full_text [] Hin) as [Hlong _].
  cbn in Hlong. unfold Nat.lt in Hlong. lia.
Qed.

(** On a settled store the select box changes nothing. *)
Lemma settled_after_select_box (f : feature) (full_text : list N)
    (st : gmap string value) :
  settled full_text st -> after_select_box f full_text st = st.
Proof.
  intros [Hnone|(c & Hin & Hst)]; [by apply after_select_box_none|].
  destruct (decide (f = clause_explanation)) as [->|Hf];
    [|by apply after_select_box_other].
  rewrite after_select_box_clause
    by (intros Hnone; rewrite Hnone in Hin; by apply elem_of_nil in Hin).
  rewrite (selection_offered full_text st c Hin Hst).
  by apply insert_id.
Qed.

Lemma settled_insert (full_text : list N) (st : gmap string value)
    (k : string) (v : value) :
  k <> "clause_select_tab" ->
  settled full_text st -> settled full_text (<[k := v]> st).
Proof.
  intros Hk [Hnone|(c & Hin & Hst)]; [by left|].
  right. exists c. split; [exact Hin|]. by rewrite lookup_insert_ne.
Qed.

Lemma result_key_not_select_box (f : feature) :
  result_key f <> "clause_select_tab".
Proof. by destruct f. Qed.

Section Display.

Variable C : Collaborators.
Variable catalog : feature -> descriptor.

Lemma block_settled (w : Widgets) (full_text : list N) (f : feature)
    (st : gmap string value) :
  settled full_text st ->
  block_outcome C f st (block C catalog w full_text f st)
  /\ settled full_text (state_of (block C catalog w full_text f st)).
Proof.
  intros Hset.
  pose proof (block_outcome_holds C catalog w full_text f st) as Hout.
  rewrite (settled_after_select_box f full_text st Hset) in Hout.
  split; [exact Hout|].
  destruct Hout; unfold state_of; cbn [fst snd]; try exact Hset.
  by apply settled_insert; [apply result_key_not_select_box|].
Qed.

(** A run of the blocks with one button clicked, on a settled store: when
    no display and no handler ends the run, the store is the one that the
    block of the clicked button leaves. *)
Lemma run_blocks_click (w : Widgets) (full_text : list N) (f : feature)
    (fs : list feature) (st : gmap string value) :
  (forall g : feature, g <> f -> button w g = false) ->
  NoDup fs ->
  settled full_text st ->
  ending_of (run_blocks C catalog w full_text fs st) = Normal tt ->
  state_of (run_blocks C catalog w full_text fs st)
  = if bool_decide (f ∈ fs)
    then state_of (block C catalog w full_text f st) else st.
Proof.
  intros Hothers. revert st.
  induction fs as [|g fs IH]; intros st Hnodup Hset; [reflexivity|].
  apply NoDup_cons in Hnodup as [Hg Hfs].
  cbn [run_blocks]. rewrite state_of_bind, ending_of_bind.
  assert (Hgo : forall st' : gmap string value,
            settled full_text st' ->
            ending_of ((do _ <- show C catalog g ;
                        run_blocks C catalog w full_text fs) st')
            = Normal tt ->
            state_of ((do _ <- show C catalog g ;
                       run_blocks C catalog w full_text fs) st')
            = if bool_decide (f ∈ fs)
              then state_of (block C catalog w full_text f st') else st').
  { intros st' Hset'. rewrite bind_show.
    destruct (ending_of (show C catalog g st')); [by apply IH|].
    unfold ending_of. cbn [fst snd]. discriminate. }
  destruct (decide (g = f)) as [->|Hne].
  - rewrite (bool_decide_eq_true_2 (f ∈ f :: fs)) by apply list_elem_of_here.
    destruct (block_settled w full_text f st Hset) as [_ Hset'].
    destruct (ending_of (block C catalog w full_text f st)) as [[]|e];
      [|discriminate].
    cbv beta. intros Hend. rewrite (Hgo _ Hset' Hend).
    by rewrite bool_decide_eq_false_2.
  - destruct (block_unclicked C catalog w full_text g st (Hothers g Hne))
      as (t & Hb & _).
    rewrite (settled_after_select_box g full_text st Hset) in Hb.
    rewrite Hb.
    change (ending_of (Normal tt, st, t)) with (@Normal unit tt).
    change (state_of (Normal tt, st, t)) with st.
    cbv iota beta. intros Hend. rewrite (Hgo _ Hset Hend).
    destruct (decide (f ∈ fs)) as [Hin|Hnin].
    + rewrite !bool_decide_eq_true_2;
        [reflexivity|apply list_elem_of_further, Hin|exact Hin].
    + rewrite !bool_decide_eq_false_2; [reflexivity| |exact Hnin].
      intros [Heq|Hin]%elem_of_cons; [congruence|contradiction].
Qed.

(** X28: a run in which one feature button is clicked, with no file in the
    uploader, on a store in which the select box is settled (the page on
    which the button was clicked has shown it): when the run reaches its
    end, it leaves the store that RunFeature of that feature leaves.  (A
    display whose export raises ends the run before that: see
    [script_click_stopped_by_display].) *)
Lemma script_click (persona : list N) (f : feature)
    (st : gmap string value) :
  initialised st ->
  settled (as_str (default VNone (st !! "full_text"))) st ->
  ending_of (script C catalog (click persona f) st) = Normal false ->
  state_of (script C catalog (click persona f) st)
  = state_of (RunFeature C catalog persona f st).
Proof.
  intros Hinit Hset. unfold script, RunFeature.
  rewrite (bind_noop _ _ tt st (init_session_state_noop st Hinit)).
  cbn [uploaded_file use_ocr click].
  rewrite (bind_noop _ _ tt st (upload_handler_no_file C false st)).
  rewrite !bind_getattr. cbn [clear_doc_button click].
  destruct (truthy _); [|reflexivity].
  rewrite state_of_bind_ret, ending_of_bind.
  destruct (script_order_complete f) as [Hnodup Hin].
  intros Hend.
  rewrite (run_blocks_click _ _ f _ _); [|cbn [button]|exact Hnodup|exact Hset|].
  - rewrite bool_decide_eq_true_2 by exact Hin. reflexivity.
  - intros g Hg. apply bool_decide_eq_false_2, Hg.
  - by destruct (ending_of (run_blocks _ _ _ _ _ _)) as [[]|e].
Qed.

(** A run of the blocks with nothing clicked and no result in the store:
    nothing is displayed, and only the select box writes. *)
Lemma run_blocks_idle (w : Widgets) (full_text : list N)
    (fs : list feature) (st : gmap string value) :
  (forall g : feature, button w g = false) ->
  (forall g : feature, st !! result_key g = Some (VStr [])) ->
  NoDup fs ->
  ending_of (run_blocks C catalog w full_text fs st) = Normal tt
  /\ state_of (run_blocks C catalog w full_text fs st)
     = if bool_decide (clause_explanation ∈ fs)
       then after_select_box clause_explanation full_text st else st.
Proof.
  intros Hbuttons. revert st.
  induction fs as [|g fs IH]; intros st Hempty Hnodup; [done|].
  apply NoDup_cons in Hnodup as [Hg Hfs].
  cbn [run_blocks]. rewrite state_of_bind, ending_of_bind.
  destruct (block_unclicked C catalog w full_text g st (Hbuttons g))
    as (t & -> & _).
  change (ending_of (Normal tt, after_select_box g full_text st, t))
    with (@Normal unit tt).
  change (state_of (Normal tt, after_select_box g full_text st, t))
    with (after_select_box g full_text st).
  cbv iota beta.
  assert (Hempty' : forall g' : feature,
            after_select_box g full_text st !! result_key g'
            = Some (VStr [])).
  { intros g'. rewrite after_select_box_lookup; [apply Hempty|].
    intros _. apply result_key_not_select_box. }
  rewrite (bind_noop _ _ tt _ (show_empty C catalog g _
             ltac:(by rewrite Hempty'))).
  destruct (IH _ Hempty' Hfs) as [-> ->]. split; [reflexivity|].
  destruct (decide (g = clause_explanation)) as [->|Hne].
  - rewrite (bool_decide_eq_true_2 (_ ∈ _ :: fs)) by apply list_elem_of_here.
    by rewrite bool_decide_eq_false_2.
  - rewrite (after_select_box_other g full_text st Hne).
    destruct (decide (clause_explanation ∈ fs)) as [Hin|Hnin].
    + rewrite !bool_decide_eq_true_2;
        [reflexivity|apply list_elem_of_further, Hin|exact Hin].
    + rewrite !bool_decide_eq_false_2; [reflexivity| |exact Hnin].
      intros [Heq|Hin]%elem_of_cons; [congruence|contradiction].
Qed.

(** A run that loads a new file and serves no click. *)
Lemma script_new_upload (w : Widgets) (f : UploadedFile)
    (st : gmap string value) :
  initialised st ->
  uploaded_file w = Some f ->
  clear_doc_button w = false ->
  (forall g : feature, button w g = false) ->
  st !! "uploaded_file_name" <> Some (VStr (name f)) ->
  ending_of (script C catalog w st) = Normal false
  /\ state_of (script C catalog w st)
     = match clauses (process_document C f (use_ocr w)).1 with
       | [] => state_of (LoadDocument C f (use_ocr w) st)
       | c :: _ =>
           <["clause_select_tab" := VStr c]>
             (state_of (LoadDocument C f (use_ocr w) st))
       end.
Proof.
  intros Hinit Hfile Hclear Hbuttons Hnew. unfold script.
  rewrite (bind_noop _ _ tt st (init_session_state_noop st Hinit)).
  rewrite Hfile, state_of_bind, ending_of_bind, upload_handler_normal.
  change (upload_handler C (Some f) (use_ocr w) st)
    with (LoadDocument C f (use_ocr w) st).
  destruct (LoadDocument_new_document C f (use_ocr w) st Hnew)
    as [_ Htext].
  assert (Hempty : forall g : feature,
            state_of (LoadDocument C f (use_ocr w) st) !! result_key g
            = Some (VStr [])).
  { intros g. rewrite (LoadDocument_new C f (use_ocr w) st Hnew).
    unfold state_of at 1. cbn [fst snd]. apply cleared_result. }
  assert (Hsel : state_of (LoadDocument C f (use_ocr w) st)
                   !! "clause_select_tab" = Some (VStr [])).
  { rewrite (LoadDocument_new C f (use_ocr w) st Hnew).
    unfold state_of at 1. cbn [fst snd]. apply cleared_input.
    apply (bool_decide_unpack _). vm_compute. exact I. }
  revert Htext Hempty Hsel.
  generalize (state_of (LoadDocument C f (use_ocr w) st)).
  generalize ((process_document C f (use_ocr w)).1).
  intros text st1 Htext Hempty Hsel.
  rewrite bind_getattr, Hclear, Htext. cbn [from_option id truthy as_str].
  destruct text as [|c0 text0] eqn:Hdoc; cbn [nonempty];
    [split; reflexivity|].
  rewrite <- Hdoc. clear Hdoc.
  rewrite state_of_bind_ret, ending_of_bind.
  destruct (run_blocks_idle w text script_order st1 Hbuttons Hempty
              (proj1 (script_order_complete clause_explanation)))
    as [-> ->].
  split; [reflexivity|].
  rewrite bool_decide_eq_true_2
    by apply (script_order_complete clause_explanation).
  unfold after_select_box. destruct (clauses text) as [|c cs] eqn:Hcl;
    [reflexivity|].
  by rewrite (selection_first text st1 c cs Hcl Hsel).
Qed.

(** X29: a run with a new file in the uploader and nothing clicked reaches
    its end and leaves the store that LoadDocument of that file leaves,
    but for the select box of the clause tab: when the text has a clause,
    the box stores the first clause under its key. *)
Lemma script_upload (w : Widgets) (f : UploadedFile)
    (st : gmap string value) :
  initialised st ->
  uploaded_file w = Some f ->
  clear_doc_button w = false ->
  (forall g : feature, button w g = false) ->
  st !! "uploaded_file_name" <> Some (VStr (name f)) ->
  ending_of (script C catalog w st) = Normal false
  /\ state_of (script C catalog w st)
     = match clauses (process_document C f (use_ocr w)).1 with
       | [] => state_of (LoadDocument C f (use_ocr w) st)
       | c :: _ =>
           <["clause_select_tab" := VStr c]>
             (state_of (LoadDocument C f (use_ocr w) st))
       end.
Proof.
  intros Hinit Hfile Hclear Hbuttons Hnew.
  exact (script_new_upload w f st Hinit Hfile Hclear Hbuttons Hnew).
Qed.

(** The clear button with a file in the uploader, from any initialised
    store: the run that the rerun starts loads the file again, so that
    ClearDocument leaves the name and the text of the file in the store. *)
Lemma ClearDocument_with_file (w : Widgets) (f : UploadedFile)
    (st : gmap string value) :
  initialised st ->
  uploaded_file w = Some f ->
  ending_of (ClearDocument C catalog w st) = Normal false
  /\ state_of (ClearDocument C catalog w st) !! "uploaded_file_name"
     = Some (VStr (name f))
  /\ state_of (ClearDocument C catalog w st) !! "full_text"
     = Some (VStr (process_document C f (use_ocr w)).1).
Proof.
  intros Hinit Hfile. unfold ClearDocument.
  rewrite (bind_silent _ _ tt _ _ (clear_handler_run st)).
  assert (Hnew : state_of (clear_handler st) !! "uploaded_file_name"
                 <> Some (VStr (name f))).
  { destruct (clear_handler_clears_all st) as (_ & -> & _). discriminate. }
  destruct (script_new_upload (rerun w) f (state_of (clear_handler st))
              (clear_handler_initialised st Hinit) Hfile eq_refl
              (fun _ => eq_refl) Hnew) as [Hend Hst].
  destruct (LoadDocument_new_document C f (use_ocr w) _ Hnew)
    as [Hname Htext].
  split; [exact Hend|]. rewrite Hst. cbn [use_ocr rerun].
  destruct (clauses _); [by split|].
  by rewrite !lookup_insert_ne.
Qed.

End Display.

Lemma script_click_witness :
  Sample.rendered !! "clause_select_tab" = Some (VStr Demo.lease_clause)
  /\ state_of (RunFeature Demo.answering Demo.catalog Demo.persona
                 executive_summary Sample.rendered) !! "summary_result"
     = Some (VStr (lit "The rent is due monthly."))
  /\ state_of (script Demo.answering Demo.catalog
                 (click Demo.persona executive_summary) Sample.rendered)
     = state_of (RunFeature Demo.answering Demo.catalog Demo.persona
                   executive_summary Sample.rendered).
Proof.
  split; [vm_compute; reflexivity|]. split; [vm_compute; reflexivity|].
  apply script_click.
  - unfold initialised. apply Forall_forall.
    apply (bool_decide_unpack _). vm_compute. exact I.
  - right. exists Demo.lease_clause. split.
    + apply (bool_decide_unpack _). vm_compute. exact I.
    + vm_compute. reflexivity.
  - vm_compute. reflexivity.
Defined.

(** A stored answer on which [create_pdf] raises stops every later run at
    the display of the answer: the click on the summary button that
    follows is never served, where RunFeature of the summary stores a
    summary. *)
Example script_click_stopped_by_display :
  let st := <["qa_answer_result" := VStr (lit "<b>bold")]> Sample.rendered in
  let r := script Demo.answering Demo.catalog
             (click Demo.persona executive_summary) st in
  ending_of r = Uncaught "ValueError: paragraph text has an unclosed tag"
  /\ trace_of r = []
  /\ state_of r !! "summary_result" = Some (VStr [])
  /\ state_of (RunFeature Demo.answering Demo.catalog Demo.persona
                 executive_summary st) !! "summary_result"
     = Some (VStr (lit "The rent is due monthly.")).
Proof. vm_compute. repeat split. Qed.

Lemma script_upload_witness :
  Demo.fresh !! "clause_select_tab" = Some (VStr [])
  /\ ending_of (script Demo.answering Demo.catalog Sample.idle Demo.fresh)
     = Normal false
  /\ state_of (script Demo.answering Demo.catalog Sample.idle Demo.fresh)
     = <["clause_select_tab" := VStr Demo.lease_clause]>
         (state_of (LoadDocument Demo.answering Demo.lease
                      (use_ocr Sample.idle) Demo.fresh)).
Proof.
  split; [vm_compute; reflexivity|].
  refine (script_upload Demo.answering Demo.catalog Sample.idle Demo.lease
            Demo.fresh _ eq_refl eq_refl (fun _ => eq_refl) _).
  - unfold initialised. apply Forall_forall.
    apply (bool_decide_unpack _). vm_compute. exact I.
  - vm_compute. discriminate.
Defined.

(** ** Loading, clearing and initialising, composed *)

(** X17: loading is idempotent: once a file was seen, the same file is not
    processed again, not even with the OCR box ticked the other way; the
    second LoadDocument changes and shows nothing. *)
Theorem LoadDocument_idempotent (C : Collaborators) (f : UploadedFile)
    (ocr again : bool) (st : gmap string value) :
  LoadDocument C f again (state_of (LoadDocument C f ocr st))
  = (Normal tt, state_of (LoadDocument C f ocr st), []).
Proof.
  apply LoadDocument_same.
  destruct (decide (st !! "uploaded_file_name" = Some (VStr (name f))))
    as [Hsame|Hnew].
  - by rewrite (LoadDocument_same C f ocr st Hsame).
  - by apply LoadDocument_new_document.
Qed.

(** X18: after the clear button every file is new: a LoadDocument that
    follows the assignments of the clear handler processes the file, the
    one just cleared included, and stores its name and its text. *)
Theorem LoadDocument_after_clear (C : Collaborators) (f : UploadedFile)
    (ocr : bool) (st : gmap string value) :
  state_of (LoadDocument C f ocr (state_of (clear_handler st)))
    !! "uploaded_file_name" = Some (VStr (name f))
  /\ state_of (LoadDocument C f ocr (state_of (clear_handler st)))
       !! "full_text" = Some (VStr (process_document C f ocr).1)
  /\ trace_of (LoadDocument C f ocr (state_of (clear_handler st)))
     = (process_document C f ocr).2.
Proof.
  assert (Hnew : state_of (clear_handler st) !! "uploaded_file_name"
                 <> Some (VStr (name f))).
  { destruct (clear_handler_clears_all st) as (_ & -> & _). discriminate. }
  destruct (LoadDocument_new_document C f ocr _ Hnew) as [Hname Htext].
  split; [exact Hname|]. split; [exact Htext|].
  by rewrite (LoadDocument_new C f ocr _ Hnew).
Qed.

Lemma setdefault_keeps (k : string) (v : value) (k' : string) (x : value)
    (st : gmap string value) :
  st !! k' = Some x -> state_of (setdefault k v st) !! k' = Some x.
Proof.
  intros Hx. unfold setdefault, state_of.
  destruct (st !! k) eqn:Hk; cbn [fst snd]; [exact Hx|].
  rewrite lookup_insert_ne; [exact Hx|]. intros ->. congruence.
Qed.

(** X19: the initialisation block never overwrites: a key that is in the
    store keeps its value, whatever the key. *)
Theorem init_session_state_keeps (st : gmap string value) (k : string)
    (x : value) :
  st !! k = Some x ->
  state_of (init_session_state st) !! k = Some x.
Proof.
  intros Hx. unfold init_session_state.
  rewrite !state_of_bind_setdefault.
  by repeat apply setdefault_keeps.
Qed.

Lemma init_session_state_keeps_witness :
  state_of (init_session_state Demo.answered) !! "qa_answer_result"
  = Some (VStr (lit "The rent is due monthly.")).
Proof. apply init_session_state_keeps. vm_compute. reflexivity. Defined.

(** X20: the initialisation block is idempotent: on the store it leaves,
    whatever store it started from, it changes nothing. *)
Theorem init_session_state_idempotent (st : gmap string value) :
  init_session_state (state_of (init_session_state st))
  = (Normal tt, state_of (init_session_state st), []).
Proof. apply init_session_state_noop, init_session_state_initialised. Qed.

(** ** The PDF export *)

Lemma body_facts (lines : list (list N)) :
  paragraphs (body lines) = lines
  /\ length (body lines) = (2 * length lines)%nat.
Proof.
  induction lines as [|p l [IHp IHl]]; [done|].
  change (body (p :: l))
    with (Paragraph p "Normal" :: Spacer 1 10 :: body l).
  change (paragraphs (Paragraph p "Normal" :: Spacer 1 10 :: body l))
    with (p :: paragraphs (body l)).
  rewrite IHp. cbn [length]. rewrite IHl. split; [reflexivity|lia].
Qed.

Lemma body_app (l1 l2 : list (list N)) : body (l1 ++ l2) = body l1 ++ body l2.
Proof. unfold body. by rewrite flat_map_app. Qed.

Section PdfExport.

Variable C : Collaborators.

(** The loop of [create_pdf]: it returns the story with the kept lines
    appended when [Paragraph] accepts them all, and raises what [Paragraph]
    raises on the first kept line that it rejects. *)
Lemma add_content_run (acc : list flowable) (segments : list (list N)) :
  match add_content C acc segments with
  | Returns s =>
      s = acc ++ body (filter nonblank segments)
      /\ Forall (fun p => exists u, platypus_Paragraph C p "Normal" = Returns u)
           (filter nonblank segments)
  | Raises e =>
      exists (before : list (list N)) (p : list N) (after : list (list N)),
        filter nonblank segments = before ++ p :: after
        /\ Forall
             (fun q => exists u, platypus_Paragraph C q "Normal" = Returns u)
             before
        /\ platypus_Paragraph C p "Normal" = Raises e
  end.
Proof.
  revert acc. induction segments as [|p l IH]; intros acc.
  - cbn. by rewrite app_nil_r.
  - cbn [add_content]. rewrite filter_cons.
    destruct (decide (nonblank p)) as [Hnb|Hnb]; unfold nonblank in Hnb.
    + rewrite Hnb. unfold new_Paragraph.
      destruct (platypus_Paragraph C p "Normal") as [u|e] eqn:Hp.
      * specialize (IH (acc ++ [Paragraph p "Normal"; Spacer 1 10])).
        destruct (add_content C _ l) as [s|e].
        -- destruct IH as [-> Hall]. split.
           ++ change (p :: filter nonblank l)
                with ([p] ++ filter nonblank l).
              rewrite body_app, <- app_assoc. reflexivity.
           ++ constructor; eauto.
        -- destruct IH as (before & q & after & Heq & Hall & Hq).
           exists (p :: before), q, after. rewrite Heq.
           split; [done|]. split; [constructor; eauto|done].
      * exists [], p, (filter nonblank l). by repeat split.
    + apply not_true_is_false in Hnb. rewrite Hnb. apply IH.
Qed.

(** X21: the PDF story holds the title and then exactly the lines of the
    content that are not blank, unstripped and in order, each followed by a
    spacer: two flowables for the title and two for every such line; and
    there is a story exactly when [Paragraph] accepts the title and every
    such line: otherwise [create_pdf] raises what [Paragraph] raises on
    the title or on the first of these lines that it rejects. *)
Theorem story_keeps_nonblank_lines (text_content title : list N) :
  match story C text_content title with
  | Returns s =>
      paragraphs s = title :: filter nonblank (split newline text_content)
      /\ length s
         = (2 + 2 * length (filter nonblank (split newline text_content)))%nat
      /\ Forall (fun x => exists u,
                   platypus_Paragraph C x.1 x.2 = Returns u)
           ((title, "h1")
            :: ((fun p => (p, "Normal"))
                  <$> filter nonblank (split newline text_content)))
      /\ create_pdf C text_content title = SimpleDocTemplate_build C s
  | Raises e =>
      create_pdf C text_content title = Raises e
      /\ (platypus_Paragraph C title "h1" = Raises e
          \/ exists (before : list (list N)) (p : list N)
                    (after : list (list N)),
               filter nonblank (split newline text_content)
               = before ++ p :: after
               /\ Forall
                    (fun q => exists u,
                       platypus_Paragraph C q "Normal" = Returns u)
                    before
               /\ platypus_Paragraph C p "Normal" = Raises e)
  end.
Proof.
  unfold create_pdf, story, new_Paragraph.
  destruct (platypus_Paragraph C title "h1") as [u|e] eqn:Htitle;
    [|by split; [|left]].
  pose proof (add_content_run [Paragraph title "h1"; Spacer 1 20]
                (split newline text_content)) as Hrun.
  destruct (add_content C _ _) as [s|e].
  - destruct Hrun as [-> Hall].
    destruct (body_facts (filter nonblank (split newline text_content)))
      as [Hp Hl].
    split.
    { change (title :: paragraphs
                (body (filter nonblank (split newline text_content)))
              = title :: filter nonblank (split newline text_content)).
      by rewrite Hp. }
    split.
    { change (S (S (length
                (body (filter nonblank (split newline text_content)))))
              = (2 + 2 * length
                   (filter nonblank (split newline text_content)))%nat).
      by rewrite Hl. }
    split; [|reflexivity].
    constructor; [by exists u|]. by apply Forall_fmap.
  - split; [reflexivity|]. by right.
Qed.

Lemma lstrip_blank (s : list N) : forallb isspace s = true -> lstrip s = [].
Proof.
  induction s as [|c s IH]; [done|]. cbn [forallb lstrip].
  intros [-> Hs]%andb_true_iff. by apply IH.
Qed.

Lemma split_segment_elements (sep : N) (s seg : list N) (x : N) :
  seg ∈ split sep s -> x ∈ seg -> x ∈ s.
Proof.
  revert seg. induction s as [|c s IH]; intros seg; cbn [split].
  - by intros ->%list_elem_of_singleton.
  - destruct (split_cons_form sep s) as (h & t & Hs). rewrite Hs in *.
    destruct (c =? sep).
    + intros [->|Hin]%elem_of_cons Hx; [by apply elem_of_nil in Hx|].
      apply list_elem_of_further. by apply (IH seg).
    + intros [->|Hin]%elem_of_cons Hx.
      * apply elem_of_cons in Hx as [->|Hx]; [apply list_elem_of_here|].
        apply list_elem_of_further, (IH h); [apply list_elem_of_here|done].
      * apply list_elem_of_further, (IH seg); [|done].
        by apply list_elem_of_further.
Qed.

Lemma add_content_blank (acc : list flowable) (segments : list (list N)) :
  (forall seg, seg ∈ segments -> forallb isspace seg = true) ->
  add_content C acc segments = Returns acc.
Proof.
  induction segments as [|p l IH]; intros Hall; [done|].
  cbn [add_content]. unfold strip.
  rewrite (lstrip_blank p) by apply Hall, list_elem_of_here.
  cbn. apply IH. intros seg Hseg. apply Hall, list_elem_of_further, Hseg.
Qed.

(** X22: a content of whitespace only (the empty content included) gives
    a PDF story with the title and its spacer and nothing else: no
    paragraph is built from the content, so that only the title can make
    [Paragraph] raise. *)
Theorem story_of_blank_content (text_content title : list N) :
  forallb isspace text_content = true ->
  story C text_content title
  = match platypus_Paragraph C title "h1" with
    | Returns _ => Returns [Paragraph title "h1"; Spacer 1 20]
    | Raises e => Raises e
    end.
Proof.
  intros Hblank. unfold story, new_Paragraph.
  destruct (platypus_Paragraph C title "h1"); [|reflexivity].
  apply add_content_blank.
  intros seg Hseg. apply forallb_forall. intros x Hx%list_elem_of_In.
  rewrite forallb_forall in Hblank. apply Hblank, list_elem_of_In.
  exact (split_segment_elements newline text_content seg x Hseg Hx).
Qed.

End PdfExport.

Lemma story_keeps_nonblank_lines_witness :
  story Demo.answering Sample.two_lines (lit "Q&A Answer")
  = Returns
      [Paragraph (lit "Q&A Answer") "h1"; Spacer 1 20;
       Paragraph (lit " Rent is due.") "Normal"; Spacer 1 10;
       Paragraph (lit "<b>Monthly.</b>") "Normal"; Spacer 1 10]
  /\ (paragraphs
        [Paragraph (lit "Q&A Answer") "h1"; Spacer 1 20;
         Paragraph (lit " Rent is due.") "Normal"; Spacer 1 10;
         Paragraph (lit "<b>Monthly.</b>") "Normal"; Spacer 1 10]
      = [lit "Q&A Answer"; lit " Rent is due."; lit "<b>Monthly.</b>"]
      /\ create_pdf Demo.answering Sample.two_lines (lit "Q&A Answer")
         = Returns (lit "%PDF-1.4"))
  /\ create_pdf Demo.answering Sample.unclosed (lit "Q&A Answer")
     = Raises "ValueError: paragraph text has an unclosed tag".
Proof.
  split; [vm_compute; reflexivity|].
  pose proof (story_keeps_nonblank_lines Demo.answering Sample.two_lines
                (lit "Q&A Answer")) as Hgood.
  pose proof (story_keeps_nonblank_lines Demo.answering Sample.unclosed
                (lit "Q&A Answer")) as Hbad.
  vm_compute in Hgood, Hbad.
  destruct Hgood as (Hp & _ & _ & Hpdf). destruct Hbad as [Hraise _].
  split; [split|]; vm_compute; [exact Hp|exact Hpdf|exact Hraise].
Defined.

Lemma story_of_blank_content_witness :
  story Demo.answering (lit "  " ++ [0x0D; newline; 0x09; newline])
    (lit "Q&A Answer")
  = Returns [Paragraph (lit "Q&A Answer") "h1"; Spacer 1 20].
Proof.
  apply (story_of_blank_content Demo.answering). vm_compute. reflexivity.
Defined.

(** ** Instances *)

Lemma pdf_text_layer_concatenates_witness :
  process_document Sample.readable Sample.contract_pdf false
  = (lit "Page one.Page two.", [Notice success "Text extracted from PDF."]).
Proof.
  apply (pdf_text_layer_concatenates Sample.readable Sample.contract_pdf
           [lit "Page one."; lit "Page two."]); vm_compute; reflexivity.
Defined.

Lemma pdf_text_layer_keeps_read_pages_witness :
  process_document Demo.answering Demo.damaged false
  = (lit "Page one.", pdf_failed "cannot load page 2").
Proof.
  apply (pdf_text_layer_keeps_read_pages Demo.answering Demo.damaged
           [lit "Page one."] "cannot load page 2" []);
    vm_compute; reflexivity.
Defined.

Lemma pdf_ocr_all_or_nothing_witness :
  process_document Sample.readable Sample.contract_pdf true
  = (lit "Scan one." ++ [newline] ++ lit "Scan two.",
     [Notice success "OCR completed successfully!"])
  /\ (process_document Sample.smudged Sample.contract_pdf true).1 = [].
Proof.
  split.
  - refine (proj1 (pdf_ocr_all_or_nothing Sample.readable
                     Sample.contract_pdf
                     [Returns (lit "Scan one."); Returns (lit "Scan two.")]
                     _ eq_refl)
              [lit "Scan one."; lit "Scan two."] eq_refl).
    vm_compute. reflexivity.
  - refine (proj2 (pdf_ocr_all_or_nothing Sample.smudged
                     Sample.contract_pdf
                     [Returns (lit "Scan one."); Raises "TesseractError"]
                     _ eq_refl)
              "TesseractError" _).
    + vm_compute. reflexivity.
    + apply list_elem_of_further, list_elem_of_here.
Defined.

Lemma txt_upload_roundtrip_witness :
  process_document Demo.answering Sample.notes_txt false
  = (Demo.symbols, [Notice success "Text extracted from TXT."]).
Proof.
  apply txt_upload_roundtrip; vm_compute; reflexivity.
Defined.

Lemma docx_clauses_are_paragraphs_witness :
  clauses (process_document Sample.readable Sample.contract_docx false).1
  = [Demo.lease_clause].
Proof.
  apply (docx_clauses_are_paragraphs Sample.readable Sample.contract_docx
           false [Demo.lease_clause; lit "Signed."]).
  - vm_compute. reflexivity.
  - reflexivity.
  - apply (bool_decide_unpack _). vm_compute. exact I.
Defined.

Lemma txt_upload_canonical_witness :
  (process_document Demo.answering Sample.notes_txt false).1 = Demo.symbols
  /\ encode Demo.symbols = Some (read Sample.notes_txt)
  /\ forallb is_scalar Demo.symbols = true.
Proof.
  apply txt_upload_canonical; vm_compute; reflexivity.
Defined.

Lemma process_document_failure_empty_witness :
  (process_document Sample.smudged Sample.contract_pdf true).1 = [].
Proof.
  apply process_document_failure_empty.
  - left. reflexivity.
  - exists ("OCR failed: TesseractError. Please ensure Tesseract and "
            +:+ "Poppler are correctly installed and configured.").
    vm_compute. apply list_elem_of_here.
Defined.

Lemma RunFeature_frame_witness :
  Demo.loaded !! "clause_select_tab" = Some (VStr [])
  /\ state_of (RunFeature Demo.rate_limited Demo.catalog Demo.persona
                 clause_explanation Demo.loaded) !! "clause_select_tab"
     = Some (VStr Demo.lease_clause)
  /\ state_of (RunFeature Demo.rate_limited Demo.catalog Demo.persona
                 clause_explanation Demo.loaded) !! "full_text"
     = Demo.loaded !! "full_text".
Proof.
  split; [vm_compute; reflexivity|]. split.
  - refine (eq_trans
              (proj1 (RunFeature_frame Demo.rate_limited Demo.catalog
                        Demo.persona clause_explanation Demo.loaded
                        "clause_select_tab" _)) _).
    + discriminate.
    + vm_compute. reflexivity.
  - vm_compute. reflexivity.
Defined.

Lemma RunFeature_reported_failure_clears_own_slot_witness :
  state_of (RunFeature Demo.rate_limited Demo.catalog Demo.persona
              qa_answer Demo.answered) !! result_key qa_answer
  = Some (VStr []).
Proof.
  apply (RunFeature_reported_failure_clears_own_slot Demo.rate_limited
           Demo.catalog Demo.persona qa_answer Demo.answered Demo.question).
  - vm_compute. apply list_elem_of_here.
  - reflexivity.
  - vm_compute. reflexivity.
Defined.

Lemma download_qa_txt_tab_roundtrip_witness :
  exists b : list N,
    download_qa_txt_tab Demo.answered = Some b
    /\ decode b = Some (lit "The rent is due monthly.").
Proof.
  apply download_qa_txt_tab_roundtrip.
  - vm_compute. reflexivity.
  - discriminate.
  - vm_compute. reflexivity.
Defined.

Lemma script_initialised_witness :
  is_Some (state_of (script Demo.offline Demo.catalog
                       (click Demo.persona qa_answer) ∅)
             !! "uploaded_file_name")
  /\ is_Some (state_of (script Demo.offline Demo.catalog
                          (click Demo.persona qa_answer) ∅)
                !! "compare_input_tab").
Proof.
  split; apply script_initialised, (bool_decide_unpack _);
    vm_compute; exact I.
Defined.

Lemma script_clear_witness :
  script Demo.answering Demo.catalog Sample.clearing Demo.answered
  = (Normal true, state_of (clear_handler Demo.answered), [])
  /\ ClearDocument Demo.answering Demo.catalog Sample.clearing Demo.answered
     = (Normal false, state_of (clear_handler Demo.answered), []).
Proof.
  apply script_clear; try reflexivity.
  unfold initialised. apply Forall_forall.
  apply (bool_decide_unpack _). vm_compute. exact I.
Defined.
